(** * Transformer-decoder-only: the evaluation harness ([src/evaluation.py])

    A shallow embedding of [evaluation.py]: the configuration class
    [ModelConfig], [load_data], [evaluate_texts] and [main].  The model, the
    text generator, the dataset loader and the BLEU/ROUGE scorers are external
    collaborators of the script; they are taken as parameters acting on an
    opaque world, and every call the script makes to them is recorded, in
    order, in a log. *)

From Stdlib Require Import ZArith QArith Lia.
From stdpp Require Import base list strings gmap.

Local Open Scope Z_scope.

(** ** Python values *)

(** A Python [str] is a sequence of Unicode code points; [len] and slicing
    count code points (characters). *)
Abbreviation pystr := (list N).

(** A string literal of the script, as a [pystr]. *)
Definition lit (s : string) : pystr :=
  map Ascii.N_of_ascii (String.list_ascii_of_string s).

(** [len(s)]: a Python int. *)
Definition len {A} (s : list A) : Z := Z.of_nat (length s).

(** [s[:k]] for a Python int [k]: a negative bound counts from the end, and
    bounds outside the sequence are clamped. *)
Definition slice_to {A} (s : list A) (k : Z) : list A :=
  if decide (0 <= k) then take (Z.to_nat k) s
  else take (Z.to_nat (Z.max 0 (len s + k))) s.

(** Lines 90-91 of [main]: what is appended to [generated_texts] and to
    [reference_texts] for one sample, [generated_text] being the generator's
    output and [record] being [test_datasets[i]]. *)
Definition aligned_generated (generated_text record : pystr) : pystr :=
  slice_to generated_text (Z.min (len generated_text) (len record)).

Definition aligned_reference (generated_text record : pystr) : pystr :=
  slice_to record (Z.min (len generated_text) (len record)).

(** ** Configuration *)

(** [class ModelConfig]: the values read from [config.json] when the module
    is loaded.  The JSON numbers are Python ints (floats for the dropout). *)
Record ModelConfig := {
  CONTEXT_LENGTH : Z;
  D_MODEL : Z;
  D_FF : Z;
  NUM_BLOCKS : Z;
  NUM_HEADS : Z;
  DROP_OUT : Q;
  MODEL_PATH : string;
  DATASET_PATH : string;
  DEVICE : string
}.

(** ** The dataset *)

(** One row of a split; the script reads its ['text'] column only. *)
Record row := { text : pystr }.

(** What [load_dataset] returns: a dictionary from split names to splits, a
    split being an ordered, indexable sequence of rows. *)
Abbreviation DatasetDict := (gmap string (list row)).

(** ** External collaborators *)

(** The result of a call: a value, or a raised exception. *)
Inductive outcome (E A : Type) : Type :=
| Returned (a : A)
| Raised (e : E).
Arguments Returned {E A} a.
Arguments Raised {E A} e.

(** The collaborators of the script.  Each acts on an opaque [world] (model
    weights, random number generator, files, network), so that two calls with
    the same arguments need not return the same value, and each may raise.
    - [model_load device path]: lines 68-70;
    - [load_dataset path]: [datasets.load_dataset];
    - [new_generator path]: the constructor [TextGenerator(model_path=...)];
    - [generate_text prompt max_tokens temperature top_k]:
      [TextGenerator.generate_text];
    - [evaluate_load name] and [metric_compute metric predictions references]:
      [evaluate.load] and the [compute] method of what it returns. *)
Class Collaborators := {
  world : Type;
  exn : Type;
  metric : Type;
  score : Type;
  model_load : string -> string -> world -> outcome exn unit * world;
  load_dataset : string -> world -> outcome exn DatasetDict * world;
  new_generator : string -> world -> outcome exn unit * world;
  generate_text : pystr -> Z -> Q -> Z -> world -> outcome exn pystr * world;
  evaluate_load : string -> world -> outcome exn metric * world;
  metric_compute :
    metric -> list pystr -> list pystr -> world -> outcome exn score * world
}.

(** [dict] returned by [evaluate_texts]. *)
Abbreviation ScoreReport := (gmap string score).

Section Harness.
Context `{Collaborators}.

(** Exceptions of a run: the two the script's own subscripts can raise, and
    whatever a collaborator raises. *)
Inductive pyerr : Type :=
| KeyError (key : string)
| IndexError
| External (e : exn).

(** What the [print] calls of [main] show, before formatting. *)
Inductive printed : Type :=
| PPair (number : Z)
| PPrompt (prompt : pystr) (max_tokens : Z)
| PGenerated (length : Z) (generated : pystr)
| PReference (length : Z) (reference : pystr)
| PBleu (bleu : score)
| PRouge (rouge : score).

(** The log of a run.  Calls to collaborators are logged with their
    arguments and outcome; the local steps of the sample loop (line 88,
    lines 90-91) are logged too, so that the order of the statements of
    [main] can be stated. *)
Inductive event : Type :=
| EvModelLoad (device path : string) (r : outcome exn unit)
| EvLoadDataset (path : string) (r : outcome exn DatasetDict)
| EvNewGenerator (path : string) (r : outcome exn unit)
| EvPrompt (i : nat) (prompt : pystr)
| EvGenerate (prompt : pystr) (max_tokens : Z) (temperature : Q)
    (top_k : Z) (r : outcome exn pystr)
| EvAppend (i : nat) (generated reference : pystr)
| EvPrint (p : printed)
| EvEvaluateLoad (name : string) (r : outcome exn metric)
| EvCompute (m : metric) (predictions references : list pystr)
    (r : outcome exn score).

Record state := { st_world : world; st_log : list event }.

(** Computations of the script: state passing, with exceptions. *)
Definition M (A : Type) : Type := state -> outcome pyerr A * state.

Definition ret {A} (a : A) : M A := fun s => (Returned a, s).

Definition raise {A} (e : pyerr) : M A := fun s => (Raised e, s).

Definition bind {A B} (m : M A) (f : A -> M B) : M B :=
  fun s =>
    match m s with
    | (Returned a, s') => f a s'
    | (Raised e, s') => (Raised e, s')
    end.

Definition emit (ev : event) : M unit :=
  fun s => (Returned tt, {| st_world := st_world s; st_log := st_log s ++ [ev] |}).

Definition print (p : printed) : M unit := emit (EvPrint p).

(** A call to a collaborator: it steps the world, and is logged with its
    outcome; an exception it raises propagates. *)
Definition call {A} (f : world -> outcome exn A * world)
    (ev : outcome exn A -> event) : M A :=
  fun s =>
    let '(r, w) := f (st_world s) in
    (match r with Returned a => Returned a | Raised e => Raised (External e) end,
     {| st_world := w; st_log := st_log s ++ [ev r] |}).

(** [d[key]] on a dictionary. *)
Definition getkey {V} (d : gmap string V) (key : string) : M V :=
  match d !! key with
  | Some v => ret v
  | None => raise (KeyError key)
  end.

(** [xs[i]] on a sequence, for an index [i >= 0]. *)
Definition getitem {V} (xs : list V) (i : nat) : M V :=
  match xs !! i with
  | Some v => ret v
  | None => raise IndexError
  end.

(** [for i in indices: body], the body updating the local variables
    [vars]. *)
Fixpoint for_each {L} (indices : list nat) (body : nat -> L -> M L)
    (vars : L) : M L :=
  match indices with
  | [] => ret vars
  | i :: rest => bind (body i vars) (for_each rest body)
  end.

(** [range(a, b)]. *)
Definition range (a b : nat) : list nat := seq a (b - a).
End Harness.

Declare Scope py_scope.
Delimit Scope py_scope with py.
Notation "x <- m ;; k" := (bind m (fun x => k))
  (at level 100, m at next level, right associativity) : py_scope.
Notation "m ;; k" := (bind m (fun _ => k))
  (at level 100, right associativity) : py_scope.

Section Script.
Context `{Collaborators}.
Local Open Scope py_scope.

(** [load_data], lines 24-36. *)
Definition load_data (dataset_path : string) : M DatasetDict :=
  call (load_dataset dataset_path) (EvLoadDataset dataset_path).

(** [evaluate_texts], lines 38-63. *)
Definition evaluate_texts (generated_texts reference_texts : list pystr)
    : M ScoreReport :=
  bleu <- call (evaluate_load "bleu") (EvEvaluateLoad "bleu") ;;
  bleu_score <-
    call (metric_compute bleu generated_texts reference_texts)
         (EvCompute bleu generated_texts reference_texts) ;;
  rouge <- call (evaluate_load "rouge") (EvEvaluateLoad "rouge") ;;
  rouge_score <-
    call (metric_compute rouge generated_texts reference_texts)
         (EvCompute rouge generated_texts reference_texts) ;;
  ret (<["bleu" := bleu_score]> (<["rouge" := rouge_score]> ∅)).

(** Line 75. *)
Definition test_batch : nat := 10.

(** Line 77 of [main]: the body of the loop that fills [test_datasets]. *)
Definition batch_step (datasets : DatasetDict) (i : nat)
    (test_datasets : list pystr) : M (list pystr) :=
  train <- getkey datasets "train" ;;
  r <- getitem train i ;;
  ret (test_datasets ++ [text r]).

(** Lines 74-77 of [main]: the loop that fills [test_datasets]. *)
Definition build_batch (datasets : DatasetDict) : M (list pystr) :=
  for_each (range 0 test_batch) (batch_step datasets) [].

(** The literals of line 89. *)
Definition temperature_literal : Q := 7 # 10.
Definition top_k_literal : Z := 50.

(** Lines 88-95 of [main]: the body of the sample loop, on the local
    variables [generated_texts] and [reference_texts].  [test_datasets] is
    not assigned in the loop, so [test_datasets[i]] is read once. *)
Definition sample_step (cfg : ModelConfig) (test_datasets : list pystr)
    (i : nat) (vars : list pystr * list pystr)
    : M (list pystr * list pystr) :=
  let '(generated_texts, reference_texts) := vars in
  record <- getitem test_datasets i ;;
  let prompt := slice_to record (CONTEXT_LENGTH cfg) in
  emit (EvPrompt i prompt) ;;
  generated_text <-
    call (generate_text prompt (len record) temperature_literal top_k_literal)
         (EvGenerate prompt (len record) temperature_literal top_k_literal) ;;
  let generated_texts :=
    generated_texts ++ [aligned_generated generated_text record] in
  let reference_texts :=
    reference_texts ++ [aligned_reference generated_text record] in
  emit (EvAppend i (aligned_generated generated_text record)
                   (aligned_reference generated_text record)) ;;
  print (PPair (Z.of_nat i + 1)) ;;
  print (PPrompt prompt (len record)) ;;
  g <- getitem generated_texts i ;;
  print (PGenerated (len g) g) ;;
  r <- getitem reference_texts i ;;
  print (PReference (len r) r) ;;
  ret (generated_texts, reference_texts).

(** Lines 85-95 of [main]: the sample loop. *)
Definition make_pairs (cfg : ModelConfig) (test_datasets : list pystr)
    : M (list pystr * list pystr) :=
  for_each (range 0 test_batch) (sample_step cfg test_datasets) ([], []).

(** [main], lines 65-100. *)
Definition main (cfg : ModelConfig) : M unit :=
  call (model_load (DEVICE cfg) (MODEL_PATH cfg))
       (EvModelLoad (DEVICE cfg) (MODEL_PATH cfg)) ;;
  datasets <- load_data (DATASET_PATH cfg) ;;
  test_datasets <- build_batch datasets ;;
  call (new_generator (MODEL_PATH cfg)) (EvNewGenerator (MODEL_PATH cfg)) ;;
  pairs <- make_pairs cfg test_datasets ;;
  scores <- evaluate_texts (fst pairs) (snd pairs) ;;
  bleu <- getkey scores "bleu" ;;
  print (PBleu bleu) ;;
  rouge <- getkey scores "rouge" ;;
  print (PRouge rouge) ;;
  ret tt.
End Script.

(** ** Descriptions of logs *)

Section Logs.
Context `{Collaborators}.

(** A run of the script from a world, with an empty log. *)
Definition initial (w : world) : state := {| st_world := w; st_log := [] |}.

Definition run (cfg : ModelConfig) (w : world) : outcome pyerr unit * state :=
  main cfg (initial w).

(** The events of one pass through the body of the sample loop, for the
    sample [i] with record [record], when the generator's outcome is [o]. *)
Definition sample_events (cfg : ModelConfig) (i : nat) (record : pystr)
    (o : outcome exn pystr) : list event :=
  let prompt := slice_to record (CONTEXT_LENGTH cfg) in
  EvPrompt i prompt
  :: EvGenerate prompt (len record) temperature_literal top_k_literal o
  :: match o with
     | Returned g =>
         let ga := aligned_generated g record in
         let ra := aligned_reference g record in
         [EvAppend i ga ra;
          EvPrint (PPair (Z.of_nat i + 1));
          EvPrint (PPrompt prompt (len record));
          EvPrint (PGenerated (len ga) ga);
          EvPrint (PReference (len ra) ra)]
     | Raised _ => []
     end.

(** The events of the passes for the samples [a], [a+1], ... with the
    given records and generator outcomes. *)
Fixpoint samples_events (cfg : ModelConfig) (a : nat) (records : list pystr)
    (os : list (outcome exn pystr)) : list event :=
  match records, os with
  | record :: records', o :: os' =>
      sample_events cfg a record o ++ samples_events cfg (S a) records' os'
  | _, _ => []
  end.

(** The generator calls of the sample loop on the given records, from the
    world [w]: the texts generated for the samples that completed, the
    exception that stopped the loop if there was one, and the world after
    the last call. *)
Fixpoint generate_all (cfg : ModelConfig) (records : list pystr) (w : world)
    : list pystr * option exn * world :=
  match records with
  | [] => ([], None, w)
  | record :: rest =>
      match generate_text (slice_to record (CONTEXT_LENGTH cfg)) (len record)
              temperature_literal top_k_literal w with
      | (Returned g, w') =>
          let '(gs, err, w'') := generate_all cfg rest w' in (g :: gs, err, w'')
      | (Raised e, w') => ([], Some e, w')
      end
  end.

Definition outcomes (generated : list pystr) (err : option exn)
    : list (outcome exn pystr) :=
  map Returned generated ++ match err with Some e => [Raised e] | None => [] end.

(** What the sample loop leaves in its two local variables, or raises. *)
Definition pairs_outcome (records generated : list pystr) (err : option exn)
    (generated_texts reference_texts : list pystr)
    : outcome pyerr (list pystr * list pystr) :=
  match err with
  | None =>
      Returned (generated_texts ++ zip_with aligned_generated generated records,
                reference_texts ++ zip_with aligned_reference generated records)
  | Some e => Raised (External e)
  end.

(** The log of [evaluate_texts generated_texts reference_texts], with its
    outcome: it stops at the first collaborator that raises. *)
Inductive scoring_log (gs rs : list pystr)
    : outcome pyerr ScoreReport -> list event -> Prop :=
| scoring_load_bleu_raised e :
    scoring_log gs rs (Raised (External e))
      [EvEvaluateLoad "bleu" (Raised e)]
| scoring_bleu_raised bleu e :
    scoring_log gs rs (Raised (External e))
      [EvEvaluateLoad "bleu" (Returned bleu);
       EvCompute bleu gs rs (Raised e)]
| scoring_load_rouge_raised bleu bleu_score e :
    scoring_log gs rs (Raised (External e))
      [EvEvaluateLoad "bleu" (Returned bleu);
       EvCompute bleu gs rs (Returned bleu_score);
       EvEvaluateLoad "rouge" (Raised e)]
| scoring_rouge_raised bleu bleu_score rouge e :
    scoring_log gs rs (Raised (External e))
      [EvEvaluateLoad "bleu" (Returned bleu);
       EvCompute bleu gs rs (Returned bleu_score);
       EvEvaluateLoad "rouge" (Returned rouge);
       EvCompute rouge gs rs (Raised e)]
| scoring_returned bleu bleu_score rouge rouge_score :
    scoring_log gs rs
      (Returned (<["bleu" := bleu_score]> (<["rouge" := rouge_score]> ∅)))
      [EvEvaluateLoad "bleu" (Returned bleu);
       EvCompute bleu gs rs (Returned bleu_score);
       EvEvaluateLoad "rouge" (Returned rouge);
       EvCompute rouge gs rs (Returned rouge_score)].

(** The two [print] calls of lines 99-100. *)
Definition report_events (r : outcome pyerr ScoreReport) : list event :=
  match r with
  | Returned scores =>
      match scores !! "bleu", scores !! "rouge" with
      | Some b, Some r => [EvPrint (PBleu b); EvPrint (PRouge r)]
      | _, _ => []
      end
  | Raised _ => []
  end.

(** The events of lines 68-82 when nothing raises: the model is loaded, the
    dataset is loaded, and the generator is built ([o] is the outcome of
    its constructor). *)
Definition setup_events (cfg : ModelConfig) (datasets : DatasetDict)
    (o : outcome exn unit) : list event :=
  [EvModelLoad (DEVICE cfg) (MODEL_PATH cfg) (Returned tt);
   EvLoadDataset (DATASET_PATH cfg) (Returned datasets);
   EvNewGenerator (MODEL_PATH cfg) o].

(** The records of the batch: the ['text'] of the first [test_batch] rows. *)
Definition batch_of (rows : list row) : list pystr :=
  map text (take test_batch rows).

(** The log of [main], with its outcome, by the place where the run
    stops. *)
Inductive main_log (cfg : ModelConfig)
    : outcome pyerr unit -> list event -> Prop :=
| main_model_raised e :
    main_log cfg (Raised (External e))
      [EvModelLoad (DEVICE cfg) (MODEL_PATH cfg) (Raised e)]
| main_dataset_raised e :
    main_log cfg (Raised (External e))
      [EvModelLoad (DEVICE cfg) (MODEL_PATH cfg) (Returned tt);
       EvLoadDataset (DATASET_PATH cfg) (Raised e)]
| main_no_train datasets :
    datasets !! "train" = None ->
    main_log cfg (Raised (KeyError "train"))
      [EvModelLoad (DEVICE cfg) (MODEL_PATH cfg) (Returned tt);
       EvLoadDataset (DATASET_PATH cfg) (Returned datasets)]
| main_short_train datasets rows :
    datasets !! "train" = Some rows ->
    (length rows < test_batch)%nat ->
    main_log cfg (Raised IndexError)
      [EvModelLoad (DEVICE cfg) (MODEL_PATH cfg) (Returned tt);
       EvLoadDataset (DATASET_PATH cfg) (Returned datasets)]
| main_generator_raised datasets rows e :
    datasets !! "train" = Some rows ->
    (test_batch <= length rows)%nat ->
    main_log cfg (Raised (External e)) (setup_events cfg datasets (Raised e))
| main_sample_raised datasets rows generated e :
    datasets !! "train" = Some rows ->
    (test_batch <= length rows)%nat ->
    (length generated < test_batch)%nat ->
    main_log cfg (Raised (External e))
      (setup_events cfg datasets (Returned tt)
       ++ samples_events cfg 0 (batch_of rows) (outcomes generated (Some e)))
| main_scored datasets rows generated r evs :
    datasets !! "train" = Some rows ->
    (test_batch <= length rows)%nat ->
    length generated = test_batch ->
    scoring_log (zip_with aligned_generated generated (batch_of rows))
                (zip_with aligned_reference generated (batch_of rows)) r evs ->
    main_log cfg
      (match r with Returned _ => Returned tt | Raised e => Raised e end)
      (setup_events cfg datasets (Returned tt)
       ++ samples_events cfg 0 (batch_of rows) (outcomes generated None)
       ++ evs ++ report_events r).

(** The statement of [main] an event comes from. *)
Inductive step : Type :=
| SModelLoad
| SLoadDataset
| SNewGenerator
| SPrompt (i : nat)
| SGenerate
| SAppend (i : nat)
| SPrint
| SEvaluateLoad (name : string)
| SCompute (predictions references : nat).

#[global] Instance step_eq_dec : EqDecision step.
Proof. solve_decision. Defined.

Definition step_of (ev : event) : step :=
  match ev with
  | EvModelLoad _ _ _ => SModelLoad
  | EvLoadDataset _ _ => SLoadDataset
  | EvNewGenerator _ _ => SNewGenerator
  | EvPrompt i _ => SPrompt i
  | EvGenerate _ _ _ _ _ => SGenerate
  | EvAppend i _ _ => SAppend i
  | EvPrint _ => SPrint
  | EvEvaluateLoad name _ => SEvaluateLoad name
  | EvCompute _ predictions references _ =>
      SCompute (length predictions) (length references)
  end.

(** The steps of one sample, in the order of lines 88-95. *)
Definition sample_steps (i : nat) : list step :=
  [SPrompt i; SGenerate; SAppend i; SPrint; SPrint; SPrint; SPrint].

(** The steps of a run that returns, in order. *)
Definition expected_steps : list step :=
  [SModelLoad; SLoadDataset; SNewGenerator]
  ++ flat_map sample_steps (seq 0 test_batch)
  ++ [SEvaluateLoad "bleu"; SCompute test_batch test_batch;
      SEvaluateLoad "rouge"; SCompute test_batch test_batch;
      SPrint; SPrint].

(** Events of the sample loop that no other part of [main] produces. *)
Definition sample_event (ev : event) : Prop :=
  match ev with
  | EvPrompt _ _ | EvGenerate _ _ _ _ _ | EvAppend _ _ _ => True
  | _ => False
  end.

(** Calls of the dataset loader. *)
Definition dataset_event (ev : event) : Prop :=
  match ev with
  | EvLoadDataset _ _ => True
  | _ => False
  end.

(** Calls of a scorer. *)
Definition compute_event (ev : event) : Prop :=
  match ev with
  | EvCompute _ _ _ _ => True
  | _ => False
  end.


(** The texts the generator returned, in the order of the calls. *)
Definition generated_of (log : list event) : list pystr :=
  omap (fun ev =>
          match ev with
          | EvGenerate _ _ _ _ (Returned g) => Some g
          | _ => None
          end) log.

(** [record] is the ['text'] of row [i] of the ['train'] split of the
    dataset that the run loaded. *)
Definition dataset_record (cfg : ModelConfig) (log : list event) (i : nat)
    (record : pystr) : Prop :=
  exists datasets rows r,
    EvLoadDataset (DATASET_PATH cfg) (Returned datasets) ∈ log /\
    datasets !! "train" = Some rows /\
    rows !! i = Some r /\
    text r = record.

(** [rows] is the ['train'] split of the dataset that the run loaded. *)
Definition train_split (cfg : ModelConfig) (log : list event)
    (rows : list row) : Prop :=
  exists datasets,
    EvLoadDataset (DATASET_PATH cfg) (Returned datasets) ∈ log /\
    datasets !! "train" = Some rows.
End Logs.

(** ** Concrete collaborators *)

(** Collaborators that never raise, for running the script: the dataset has
    the single split ['train'] with the given rows, the generator is the
    given function of the prompt and [max_tokens], and a score is the number
    of candidates equal to their reference.  The world counts the calls. *)
Definition exact_matches (predictions references : list pystr) : nat :=
  length (filter (fun pr => pr.1 = pr.2) (zip predictions references)).

Definition stub (rows : list row) (generate : pystr -> Z -> pystr)
    : Collaborators := {|
  world := nat;
  exn := string;
  metric := string;
  score := nat;
  model_load _ _ w := (Returned tt, S w);
  load_dataset _ w := (Returned (<["train" := rows]> ∅), S w);
  new_generator _ w := (Returned tt, S w);
  generate_text prompt max_tokens _ _ w := (Returned (generate prompt max_tokens), S w);
  evaluate_load name w := (Returned name, S w);
  metric_compute _ predictions references w :=
    (Returned (exact_matches predictions references), S w)
|}.

Definition stub_config (context_length : Z) : ModelConfig := {|
  CONTEXT_LENGTH := context_length;
  D_MODEL := 64;
  D_FF := 256;
  NUM_BLOCKS := 8;
  NUM_HEADS := 4;
  DROP_OUT := 1 # 10;
  MODEL_PATH := "model/model-ckpt.pt";
  DATASET_PATH := "vesteinn/babylm";
  DEVICE := "cpu"
|}.



(** A run on ten copies of a record, with a generator that always returns
    the same text. *)
Definition fox_rows : list row :=
  replicate 10 {| text := lit "the quick brown fox jumps" |}.

Definition fox_generator (prompt : pystr) (max_tokens : Z) : pystr :=
  lit "the quick brown".

(** ** Statements of the specification that the script does not meet *)

(** The worked example in the words of the specification: a reference of 27
    characters, aligned to ["the quick "], both members of length 15. *)
Definition worked_example_as_specified : Prop :=
  len (lit "the quick brown fox jumps") = 27 /\
  len (lit "the quick brown") = 15 /\
  (aligned_generated (lit "the quick brown") (lit "the quick brown fox jumps"),
   aligned_reference (lit "the quick brown") (lit "the quick brown fox jumps"))
  = (lit "the quick brown", lit "the quick ") /\
  len (aligned_generated (lit "the quick brown") (lit "the quick brown fox jumps"))
  = 15 /\
  len (aligned_reference (lit "the quick brown") (lit "the quick brown fox jumps"))
  = 15.




(** ** Exceptions in a log *)

Section Exceptions.
Context `{Collaborators}.

(** The exception of a logged call that raised. *)
Definition raised_of (ev : event) : option exn :=
  match ev with
  | EvModelLoad _ _ (Raised e) => Some e
  | EvLoadDataset _ (Raised e) => Some e
  | EvNewGenerator _ (Raised e) => Some e
  | EvGenerate _ _ _ _ (Raised e) => Some e
  | EvEvaluateLoad _ (Raised e) => Some e
  | EvCompute _ _ _ (Raised e) => Some e
  | _ => None
  end.

(** The exceptions that the collaborators raised, in the order of the
    calls. *)
Definition exceptions_of (log : list event) : list exn := omap raised_of log.

(** The exception of a collaborator with which a computation ended. *)
Definition external_of {A} (r : outcome pyerr A) : list exn :=
  match r with
  | Raised (External x) => [x]
  | _ => []
  end.
End Exceptions.

(** ** Loading the configuration (lines 10-22) *)

(** A value returned by [json.load]. *)
#[warnings="-register-all"] Inductive json : Type :=
| JNull
| JBool (b : bool)
| JInt (z : Z)
| JFloat (q : Q)
| JString (s : string)
| JList (l : list json)
| JDict (d : gmap string json).

(** The exceptions of a subscript with a string key. *)
Inductive config_error : Type :=
| ConfigKeyError (key : string)
| ConfigTypeError.

(** [v[key]] for a string [key]: a dictionary is looked up; a list or a
    string is not indexed by strings and the other values are not
    subscriptable. *)
Definition subscript (v : json) (key : string) : outcome config_error json :=
  match v with
  | JDict d =>
      match d !! key with
      | Some x => Returned x
      | None => Raised (ConfigKeyError key)
      end
  | _ => Raised ConfigTypeError
  end.

(** [config[section][key]]. *)
Definition config_entry (config : json) (section key : string)
    : outcome config_error json :=
  match subscript config section with
  | Returned s => subscript s key
  | Raised e => Raised e
  end.

(** The attributes of [class ModelConfig] as its body leaves them: the
    annotations are not checked, so each attribute read from [config] is
    whatever value the file holds.  ([ModelConfig] above has the attributes
    at their annotated types.) *)
Record ClassAttributes := {
  attr_CONTEXT_LENGTH : json;
  attr_D_MODEL : json;
  attr_D_FF : json;
  attr_NUM_BLOCKS : json;
  attr_NUM_HEADS : json;
  attr_DROP_OUT : json;
  attr_MODEL_PATH : json;
  attr_DATASET_PATH : json;
  attr_DEVICE : string
}.

(** The entries of [config] that the class body reads, in the order of
    lines 14-21. *)
Definition class_entries : list (string * string) :=
  [("model", "context_length"); ("model", "d_model"); ("model", "d_ff");
   ("model", "num_blocks"); ("model", "num_heads"); ("model", "dropout");
   ("train", "model_path"); ("train", "dataset_path")].

Definition and_then {E A B} (r : outcome E A) (f : A -> outcome E B)
    : outcome E B :=
  match r with
  | Returned a => f a
  | Raised e => Raised e
  end.

(** The body of [class ModelConfig], lines 12-22, on the value [config] of
    line 11; [cuda_is_available] is the result of
    [torch.cuda.is_available()]. *)
Definition class_body (config : json) (cuda_is_available : bool)
    : outcome config_error ClassAttributes :=
  and_then (config_entry config "model" "context_length") (fun context_length =>
  and_then (config_entry config "model" "d_model") (fun d_model =>
  and_then (config_entry config "model" "d_ff") (fun d_ff =>
  and_then (config_entry config "model" "num_blocks") (fun num_blocks =>
  and_then (config_entry config "model" "num_heads") (fun num_heads =>
  and_then (config_entry config "model" "dropout") (fun dropout =>
  and_then (config_entry config "train" "model_path") (fun model_path =>
  and_then (config_entry config "train" "dataset_path") (fun dataset_path =>
  Returned {|
    attr_CONTEXT_LENGTH := context_length;
    attr_D_MODEL := d_model;
    attr_D_FF := d_ff;
    attr_NUM_BLOCKS := num_blocks;
    attr_NUM_HEADS := num_heads;
    attr_DROP_OUT := dropout;
    attr_MODEL_PATH := model_path;
    attr_DATASET_PATH := dataset_path;
    attr_DEVICE := if cuda_is_available then "cuda" else "cpu"
  |})))))))).

(** A [config.json] with the keys that the class body reads. *)
Definition example_config : json :=
  JDict (<["model" :=
             JDict (<["context_length" := JInt 16]>
                    (<["d_model" := JInt 64]>
                    (<["d_ff" := JInt 256]>
                    (<["num_blocks" := JInt 8]>
                    (<["num_heads" := JInt 4]>
                    (<["dropout" := JFloat (1 # 10)]> ∅))))))]>
         (<["train" :=
             JDict (<["model_path" := JString "model/model-ckpt.pt"]>
                    (<["dataset_path" := JString "vesteinn/babylm"]> ∅))]> ∅)).

(** Collaborators like those of [stub], except that the call number
    [fail_at] of the run raises (the world counts the calls from 0). *)
Definition answer {A} (fail_at : nat) (a : A) (w : nat)
    : outcome string A * nat :=
  (if decide (w = fail_at) then Raised "unavailable" else Returned a, S w).

Definition flaky_stub (rows : list row) (generate : pystr -> Z -> pystr)
    (fail_at : nat) : Collaborators := {|
  world := nat;
  exn := string;
  metric := string;
  score := nat;
  model_load _ _ := answer fail_at tt;
  load_dataset _ := answer fail_at (<["train" := rows]> ∅);
  new_generator _ := answer fail_at tt;
  generate_text prompt max_tokens _ _ := answer fail_at (generate prompt max_tokens);
  evaluate_load name := answer fail_at name;
  metric_compute _ predictions references :=
    answer fail_at (exact_matches predictions references)
|}.

(** A configuration that differs from [stub_config context_length] in the
    attributes of the model's architecture. *)
Definition wide_config (context_length : Z) : ModelConfig := {|
  CONTEXT_LENGTH := context_length;
  D_MODEL := 512;
  D_FF := 2048;
  NUM_BLOCKS := 12;
  NUM_HEADS := 8;
  DROP_OUT := 0;
  MODEL_PATH := "model/model-ckpt.pt";
  DATASET_PATH := "vesteinn/babylm";
  DEVICE := "cpu"
|}.

(** A [config.json] whose ['model'] section has no ['d_ff']. *)
Definition config_without_d_ff : json :=
  JDict (<["model" :=
             JDict (<["context_length" := JInt 16]>
                    (<["d_model" := JInt 64]>
                    (<["num_blocks" := JInt 8]>
                    (<["num_heads" := JInt 4]>
                    (<["dropout" := JFloat (1 # 10)]> ∅)))))]>
         (<["train" :=
             JDict (<["model_path" := JString "model/model-ckpt.pt"]>
                    (<["dataset_path" := JString "vesteinn/babylm"]> ∅))]> ∅)).

(** A generator that returns the empty text. *)
Definition silent_generator (prompt : pystr) (max_tokens : Z) : pystr := [].

(** A generator whose texts are longer than the records of [fox_rows]. *)
Definition long_generator (prompt : pystr) (max_tokens : Z) : pystr :=
  lit "the quick brown fox jumps over the lazy dog".

(** ** Slicing facts *)

Section Slices.
Context {A : Type}.
Implicit Types s : list A.

Lemma len_nonneg s : 0 <= len s.
Proof. unfold len. lia. Qed.

Lemma slice_to_nonneg s k : 0 <= k -> slice_to s k = take (Z.to_nat k) s.
Proof. intros Hk. unfold slice_to. destruct (decide (0 <= k)); [done | lia]. Qed.

Lemma len_slice_to_nonneg s k : 0 <= k -> len (slice_to s k) = Z.min k (len s).
Proof.
  intros Hk. rewrite slice_to_nonneg by done.
  unfold len. rewrite length_take. lia.
Qed.


Lemma slice_to_prefix s k : slice_to s k `prefix_of` s.
Proof. unfold slice_to. destruct (decide (0 <= k)); apply prefix_take. Qed.
End Slices.

Example slice_to_ex1 : slice_to (lit "abcdef") 4 = lit "abcd".
Proof. reflexivity. Qed.
Example slice_to_ex2 : slice_to (lit "abcdef") 9 = lit "abcdef".
Proof. reflexivity. Qed.
Example slice_to_ex3 : slice_to (lit "abcdef") (-2) = lit "abcd".
Proof. reflexivity. Qed.
Example slice_to_ex4 : slice_to (lit "abcdef") (-9) = [].
Proof. reflexivity. Qed.

(** ** Running the monad *)

Section Monad_facts.
Context `{Collaborators}.

Lemma bind_returned {A B} (m : M A) (f : A -> M B) s a s1 :
  m s = (Returned a, s1) -> bind m f s = f a s1.
Proof. intros Hm. unfold bind. by rewrite Hm. Qed.

Lemma bind_raised {A B} (m : M A) (f : A -> M B) s e s1 :
  m s = (Raised e, s1) -> bind m f s = (Raised e, s1).
Proof. intros Hm. unfold bind. by rewrite Hm. Qed.

Lemma getitem_some {V} (xs : list V) i v s :
  xs !! i = Some v -> getitem xs i s = (Returned v, s).
Proof. intros Hx. unfold getitem. by rewrite Hx. Qed.

Lemma getitem_none {V} (xs : list V) i s :
  xs !! i = None -> getitem xs i s = (Raised IndexError, s).
Proof. intros Hx. unfold getitem. by rewrite Hx. Qed.

Lemma getkey_some {V} (d : gmap string V) k v s :
  d !! k = Some v -> getkey d k s = (Returned v, s).
Proof. intros Hd. unfold getkey. by rewrite Hd. Qed.

Lemma getkey_none {V} (d : gmap string V) k s :
  d !! k = None -> getkey d k s = (Raised (KeyError k), s).
Proof. intros Hd. unfold getkey. by rewrite Hd. Qed.
End Monad_facts.

(** ** The batch loop, lines 74-77 *)

Section Batch.
Context `{Collaborators}.
Local Open Scope py_scope.

Lemma batch_loop_returned datasets rows n a acc s :
  datasets !! "train" = Some rows ->
  (a + n <= length rows)%nat ->
  for_each (seq a n) (batch_step datasets) acc s
  = (Returned (acc ++ map text (take n (drop a rows))), s).
Proof.
  intros Htrain. revert a acc.
  induction n as [|n IH]; intros a acc Hlen; simpl.
  - by rewrite app_nil_r.
  - destruct (lookup_lt_is_Some_2 rows a ltac:(lia)) as [r Hr].
    erewrite bind_returned; last first.
    { unfold batch_step. erewrite bind_returned by (by apply getkey_some).
      erewrite bind_returned by (by apply getitem_some). reflexivity. }
    rewrite IH by lia.
    rewrite (drop_S _ _ _ Hr). simpl. by rewrite <- app_assoc.
Qed.

Lemma batch_loop_short datasets rows n a acc s :
  datasets !! "train" = Some rows ->
  (0 < n)%nat -> (length rows < a + n)%nat ->
  for_each (seq a n) (batch_step datasets) acc s = (Raised IndexError, s).
Proof.
  intros Htrain. revert a acc.
  induction n as [|n IH]; intros a acc Hn Hlen; [lia|]. simpl.
  destruct (rows !! a) as [r|] eqn:Hr.
  - pose proof (lookup_lt_Some _ _ _ Hr).
    erewrite bind_returned; last first.
    { unfold batch_step. erewrite bind_returned by (by apply getkey_some).
      erewrite bind_returned by (by apply getitem_some). reflexivity. }
    apply IH; lia.
  - apply bind_raised. unfold batch_step.
    erewrite bind_returned by (by apply getkey_some).
    apply bind_raised. by apply getitem_none.
Qed.

Lemma build_batch_returned datasets rows s :
  datasets !! "train" = Some rows ->
  (test_batch <= length rows)%nat ->
  build_batch datasets s = (Returned (map text (take test_batch rows)), s).
Proof.
  intros Htrain Hlen. unfold build_batch, range.
  change (for_each (seq 0 (test_batch - 0)) (batch_step datasets) [] s = 
          (Returned ([] ++ map text (take (test_batch - 0) (drop 0 rows))), s)).
  by apply batch_loop_returned.
Qed.

Lemma build_batch_short datasets rows s :
  datasets !! "train" = Some rows ->
  (length rows < test_batch)%nat ->
  build_batch datasets s = (Raised IndexError, s).
Proof.
  intros Htrain Hlen. unfold build_batch, range.
  apply (batch_loop_short datasets rows); [done | unfold test_batch; lia | unfold test_batch in *; lia].
Qed.

Lemma build_batch_no_train datasets s :
  datasets !! "train" = None ->
  build_batch datasets s = (Raised (KeyError "train"), s).
Proof.
  intros Htrain. unfold build_batch, range. simpl.
  apply bind_raised. unfold batch_step. apply bind_raised. by apply getkey_none.
Qed.
End Batch.

(** ** The sample loop, lines 85-95 *)

Section Samples.
Context `{Collaborators}.

Lemma sample_step_run cfg tds i gs rs s record :
  tds !! i = Some record -> length gs = i -> length rs = i ->
  sample_step cfg tds i (gs, rs) s
  = match generate_text (slice_to record (CONTEXT_LENGTH cfg)) (len record)
            temperature_literal top_k_literal (st_world s) with
    | (o, w) =>
        (match o with
         | Returned g =>
             Returned (gs ++ [aligned_generated g record],
                       rs ++ [aligned_reference g record])
         | Raised e => Raised (External e)
         end,
         {| st_world := w; st_log := st_log s ++ sample_events cfg i record o |})
    end.
Proof.
  intros Hrec Hgs Hrs. unfold sample_step.
  erewrite bind_returned by (by apply getitem_some).
  unfold bind at 1. unfold emit at 1. unfold bind at 1. unfold call at 1.
  cbn [st_world st_log].
  destruct (generate_text _ _ _ _ _) as [[g|e] w]; [|by rewrite <- app_assoc].
  unfold bind, emit, print, emit, ret. cbn [st_world st_log].
  assert (Hlast : forall (xs : list pystr) x, length xs = i -> (xs ++ [x]) !! i = Some x).
  { intros xs x Hx. by apply list_lookup_middle. }
  rewrite (getitem_some _ _ _ _ (Hlast gs _ Hgs)). cbn [st_world st_log].
  rewrite (getitem_some _ _ _ _ (Hlast rs _ Hrs)). cbn [st_world st_log].
  by rewrite <- !app_assoc.
Qed.

Lemma sample_loop_run cfg tds n a gs rs s :
  length gs = a -> length rs = a -> (a + n <= length tds)%nat ->
  for_each (seq a n) (sample_step cfg tds) (gs, rs) s
  = match generate_all cfg (take n (drop a tds)) (st_world s) with
    | (generated, err, w) =>
        (pairs_outcome (take n (drop a tds)) generated err gs rs,
         {| st_world := w;
            st_log := st_log s
              ++ samples_events cfg a (take n (drop a tds)) (outcomes generated err) |})
    end.
Proof.
  revert a gs rs s. induction n as [|n IH]; intros a gs rs s Hgs Hrs Hlen.
  - simpl. unfold ret, pairs_outcome. simpl. rewrite !app_nil_r. by destruct s.
  - destruct (lookup_lt_is_Some_2 tds a ltac:(lia)) as [record Hrec].
    rewrite (drop_S _ _ _ Hrec). cbn [seq for_each take generate_all].
    unfold bind at 1. rewrite (sample_step_run _ _ _ _ _ _ _ Hrec Hgs Hrs).
    destruct (generate_text _ _ _ _ _) as [[g|e] w]; [|].
    2:{ unfold pairs_outcome, outcomes. simpl. by destruct (take n _). }
    rewrite IH by (rewrite ?length_app; simpl; lia).
    cbn [st_world st_log].
    destruct (generate_all cfg _ w) as [[generated err] w'].
    unfold pairs_outcome, outcomes. cbn [map app samples_events zip_with].
    rewrite <- !app_assoc. by destruct err.
Qed.

Lemma make_pairs_run cfg tds s :
  length tds = test_batch ->
  make_pairs cfg tds s
  = match generate_all cfg tds (st_world s) with
    | (generated, err, w) =>
        (pairs_outcome tds generated err [] [],
         {| st_world := w;
            st_log := st_log s ++ samples_events cfg 0 tds (outcomes generated err) |})
    end.
Proof.
  intros Hlen. unfold make_pairs, range, test_batch in *.
  rewrite sample_loop_run by (simpl; lia).
  rewrite drop_0, Nat.sub_0_r, take_ge by lia. done.
Qed.

(** The generator is called for the records in order, until it raises. *)
Lemma generate_all_length cfg records w :
  match generate_all cfg records w with
  | (generated, None, _) => length generated = length records
  | (generated, Some _, _) => (length generated < length records)%nat
  end.
Proof.
  revert w. induction records as [|record rest IH]; intros w; simpl; [done|].
  destruct (generate_text _ _ _ _ _) as [[g|e] w1]; [|simpl; lia].
  specialize (IH w1). destruct (generate_all cfg rest w1) as [[gs [e|]] w2];
    simpl; lia.
Qed.
End Samples.

(** ** The logs of [evaluate_texts] and of [main] *)

Section Runs.
Context `{Collaborators}.

Lemma report_lookup_bleu (b r : score) :
  (<["bleu" := b]> (<["rouge" := r]> (∅ : gmap string score))) !! "bleu" = Some b.
Proof. apply lookup_insert_eq. Qed.

Lemma report_lookup_rouge (b r : score) :
  (<["bleu" := b]> (<["rouge" := r]> (∅ : gmap string score))) !! "rouge" = Some r.
Proof. rewrite lookup_insert_ne by done. apply lookup_insert_eq. Qed.

Lemma evaluate_texts_log gs rs s :
  exists evs,
    st_log (evaluate_texts gs rs s).2 = st_log s ++ evs /\
    scoring_log gs rs (evaluate_texts gs rs s).1 evs.
Proof.
  unfold evaluate_texts, bind, call, ret.
  destruct (evaluate_load "bleu" _) as [[bleu|e] w1]; cbn [st_world st_log];
    [|eexists; split; [reflexivity | constructor]].
  destruct (metric_compute bleu _ _ _) as [[bleu_score|e] w2]; cbn [st_world st_log];
    [|eexists; split; [by rewrite <- app_assoc | constructor]].
  destruct (evaluate_load "rouge" _) as [[rouge|e] w3]; cbn [st_world st_log];
    [|eexists; split; [by rewrite <- !app_assoc | constructor]].
  destruct (metric_compute rouge _ _ _) as [[rouge_score|e] w4]; cbn [st_world st_log];
    eexists; (split; [by rewrite <- !app_assoc | constructor]).
Qed.

Lemma length_batch_of rows :
  (test_batch <= length rows)%nat -> length (batch_of rows) = test_batch.
Proof. intros Hlen. unfold batch_of. rewrite length_map, length_take. lia. Qed.

Lemma main_log_run cfg s :
  exists evs,
    st_log (main cfg s).2 = st_log s ++ evs /\
    main_log cfg (main cfg s).1 evs.
Proof.
  unfold main, load_data, bind, call, print, emit, ret.
  destruct (model_load _ _ _) as [[[]|e] w1]; cbn [st_world st_log];
    [|eexists; split; [reflexivity | constructor]].
  destruct (load_dataset _ _) as [[datasets|e] w2]; cbn [st_world st_log];
    [|eexists; split; [by rewrite <- app_assoc | constructor]].
  destruct (datasets !! "train") as [rows|] eqn:Htrain;
    [|rewrite build_batch_no_train by done;
      eexists; split; [by rewrite <- app_assoc | by constructor]].
  destruct (decide (test_batch <= length rows)%nat) as [Hlen|Hlen];
    [|rewrite (build_batch_short _ rows) by (done || lia);
      eexists; split; [by rewrite <- app_assoc | econstructor; [done | lia]]].
  rewrite (build_batch_returned _ rows) by done.
  fold (batch_of rows). cbn [st_world st_log].
  destruct (new_generator _ _) as [[[]|e] w3]; cbn [st_world st_log];
    [|eexists; split; [by rewrite <- !app_assoc | by econstructor]].
  rewrite make_pairs_run by (by apply length_batch_of).
  cbn [st_world st_log].
  pose proof (generate_all_length cfg (batch_of rows) w3) as Hgen.
  rewrite length_batch_of in Hgen by done.
  destruct (generate_all cfg (batch_of rows) w3) as [[generated [e|]] w4];
    cbn [pairs_outcome].
  { eexists; split; [by rewrite <- !app_assoc | by econstructor]. }
  cbn [fst snd app].
  match goal with |- context [evaluate_texts ?gs ?rs ?s0] =>
    destruct (evaluate_texts_log gs rs s0) as (evs & Hlog & Hscoring);
    destruct (evaluate_texts gs rs s0) as [r s5] end.
  cbn [fst snd st_log] in Hlog, Hscoring.
  pose proof (main_scored cfg datasets rows generated r evs Htrain Hlen Hgen Hscoring)
    as Hmain.
  destruct Hscoring.
  5:{ rewrite (getkey_some _ _ _ _ (report_lookup_bleu _ _)). cbn [st_world st_log].
      rewrite (getkey_some _ _ _ _ (report_lookup_rouge _ _)). cbn [st_world st_log fst snd].
      eexists. split; [|exact Hmain].
      rewrite Hlog. unfold report_events.
      rewrite report_lookup_bleu, report_lookup_rouge.
      by rewrite <- !app_assoc. }
  all: cbn [fst snd]; eexists; (split; [|exact Hmain]).
  all: rewrite Hlog; cbn [report_events]; by rewrite <- !app_assoc, ?app_nil_r.
Qed.

(** A run, from an empty log. *)
Lemma run_log cfg w : main_log cfg (run cfg w).1 (st_log (run cfg w).2).
Proof.
  unfold run. destruct (main_log_run cfg (initial w)) as (evs & Hlog & Hmain).
  by rewrite Hlog.
Qed.
End Runs.

(** ** What a log contains *)

Section Log_facts.
Context `{Collaborators}.

Lemma samples_events_elem cfg a records os ev :
  ev ∈ samples_events cfg a records os ->
  exists j record o,
    records !! j = Some record /\ os !! j = Some o /\
    ev ∈ sample_events cfg (a + j) record o.
Proof.
  revert a os. induction records as [|record records IH]; intros a os Hev.
  - by apply elem_of_nil in Hev.
  - destruct os as [|o os]; [by apply elem_of_nil in Hev|].
    cbn [samples_events] in Hev. apply elem_of_app in Hev as [Hev|Hev].
    + exists 0%nat, record, o. by rewrite Nat.add_0_r.
    + apply IH in Hev as (j & record' & o' & Hrec & Ho & Hev).
      exists (S j), record', o'. by rewrite Nat.add_succ_r.
Qed.

Lemma outcomes_lookup_returned generated err j g :
  outcomes generated err !! j = Some (Returned g) <-> generated !! j = Some g.
Proof.
  unfold outcomes. split.
  - intros Hj. destruct (decide (j < length generated)%nat) as [Hlt|Hge].
    + rewrite lookup_app_l in Hj by (by rewrite length_map).
      rewrite list_lookup_fmap in Hj.
      destruct (generated !! j); by simplify_eq/=.
    + rewrite lookup_app_r in Hj by (rewrite length_map; lia).
      destruct err; [|done].
      destruct (j - length (map Returned generated))%nat; done.
  - intros Hj. pose proof (lookup_lt_Some _ _ _ Hj).
    rewrite lookup_app_l by (by rewrite length_map).
    by rewrite list_lookup_fmap, Hj.
Qed.

Lemma length_outcomes generated err :
  length (outcomes generated err)
  = (length generated + match err with Some _ => 1 | None => 0 end)%nat.
Proof. unfold outcomes. rewrite length_app, length_map. by destruct err. Qed.

Lemma generated_of_app l1 l2 :
  generated_of (l1 ++ l2) = generated_of l1 ++ generated_of l2.
Proof. apply omap_app. Qed.

Lemma generated_of_samples cfg a records generated err :
  (length (outcomes generated err) <= length records)%nat ->
  generated_of (samples_events cfg a records (outcomes generated err)) = generated.
Proof.
  revert a generated. induction records as [|record records IH];
    intros a generated Hlen.
  - rewrite length_outcomes in Hlen. destruct generated; [done|simpl in Hlen; lia].
  - destruct generated as [|g generated].
    + destruct err as [e|]; [|done]. cbn. by destruct records.
    + change (outcomes (g :: generated) err)
        with (Returned g :: outcomes generated err) in *.
      cbn [samples_events]. rewrite generated_of_app. cbn.
      f_equal. apply IH. simpl in Hlen. lia.
Qed.

Lemma generated_of_scoring gs rs r evs :
  scoring_log gs rs r evs -> generated_of (evs ++ report_events r) = [].
Proof.
  intros Hs. rewrite generated_of_app.
  assert (generated_of (report_events r) = []) as ->.
  { destruct r as [scores|e]; [|done]. unfold report_events.
    by destruct (scores !! "bleu"), (scores !! "rouge"). }
  by destruct Hs.
Qed.
End Log_facts.

Section Main_log_facts.
Context `{Collaborators}.

Lemma report_events_not_sample r ev :
  ev ∈ report_events r -> sample_event ev -> False.
Proof.
  destruct r as [scores|e]; [|by intros ?%elem_of_nil].
  unfold report_events.
  destruct (scores !! "bleu"), (scores !! "rouge");
    set_unfold; intros Hev Hs; destruct_or?; by subst.
Qed.

Lemma scoring_log_not_sample gs rs r evs ev :
  scoring_log gs rs r evs -> ev ∈ evs -> sample_event ev -> False.
Proof.
  intros Hs Hev Hsample.
  destruct Hs; set_unfold; destruct_or?; by subst.
Qed.

Lemma setup_events_not_sample cfg datasets o ev :
  ev ∈ setup_events cfg datasets o -> sample_event ev -> False.
Proof.
  unfold setup_events. set_unfold. intros Hev Hs. destruct_or?; by subst.
Qed.

Lemma generated_of_setup cfg datasets o :
  generated_of (setup_events cfg datasets o) = [].
Proof. done. Qed.

(** Every event of the sample loop belongs to the pass of one sample
    [j < test_batch], made on row [j] of the train split that was loaded. *)
Lemma main_log_sample_event cfg r log ev :
  main_log cfg r log -> ev ∈ log -> sample_event ev ->
  exists datasets rows j rw o,
    EvLoadDataset (DATASET_PATH cfg) (Returned datasets) ∈ log /\
    datasets !! "train" = Some rows /\
    (test_batch <= length rows)%nat /\
    (j < test_batch)%nat /\
    rows !! j = Some rw /\
    ev ∈ sample_events cfg j (text rw) o /\
    (forall g, o = Returned g -> generated_of log !! j = Some g).
Proof.
  intros Hmain Hev Hsample.
  destruct Hmain as [e|e|datasets Htrain|datasets rows Htrain Hlen
                     |datasets rows e Htrain Hlen
                     |datasets rows generated e Htrain Hlen Hgen
                     |datasets rows generated r evs Htrain Hlen Hgen Hscoring].
  1-4: exfalso; set_unfold; destruct_or?; by subst.
  { exfalso. by eapply setup_events_not_sample. }
  - apply elem_of_app in Hev as [Hev|Hev];
      [exfalso; by eapply setup_events_not_sample|].
    apply samples_events_elem in Hev as (j & record & o & Hrec & Ho & Hev).
    unfold batch_of in Hrec. rewrite list_lookup_fmap in Hrec.
    destruct (take test_batch rows !! j) as [rw|] eqn:Hrw; [|done].
    apply lookup_take_Some in Hrw as [Hrw Hj]. injection Hrec as <-.
    exists datasets, rows, j, rw, o. split_and!; try done.
    + set_unfold. tauto.
    + intros g ->. rewrite generated_of_app, generated_of_setup. simpl.
      rewrite generated_of_samples
        by (rewrite length_outcomes, length_batch_of by done; lia).
      by apply outcomes_lookup_returned in Ho.
  - apply elem_of_app in Hev as [Hev|Hev];
      [exfalso; by eapply setup_events_not_sample|].
    apply elem_of_app in Hev as [Hev|Hev]; last first.
    { exfalso. apply elem_of_app in Hev as [Hev|Hev].
      - by eapply scoring_log_not_sample.
      - by eapply report_events_not_sample. }
    apply samples_events_elem in Hev as (j & record & o & Hrec & Ho & Hev).
    unfold batch_of in Hrec. rewrite list_lookup_fmap in Hrec.
    destruct (take test_batch rows !! j) as [rw|] eqn:Hrw; [|done].
    apply lookup_take_Some in Hrw as [Hrw Hj]. injection Hrec as <-.
    exists datasets, rows, j, rw, o. split_and!; try done.
    + set_unfold. tauto.
    + intros g ->. rewrite generated_of_app, generated_of_setup. simpl.
      rewrite generated_of_app.
      rewrite generated_of_samples
        by (rewrite length_outcomes, length_batch_of by done; lia).
      rewrite (generated_of_scoring _ _ _ _ Hscoring), app_nil_r.
      by apply outcomes_lookup_returned in Ho.
Qed.
End Main_log_facts.

Section Scoring_facts.
Context `{Collaborators}.

Lemma samples_events_not_compute cfg a records os ev :
  ev ∈ samples_events cfg a records os -> compute_event ev -> False.
Proof.
  intros (j & record & o & _ & _ & Hev)%samples_events_elem Hc.
  unfold sample_events in Hev. destruct o; set_unfold; destruct_or?; by subst.
Qed.

Lemma report_events_not_compute r ev :
  ev ∈ report_events r -> compute_event ev -> False.
Proof.
  destruct r as [scores|e]; [|by intros ?%elem_of_nil].
  unfold report_events.
  destruct (scores !! "bleu"), (scores !! "rouge");
    set_unfold; intros Hev Hs; destruct_or?; by subst.
Qed.

Lemma scoring_log_compute gs rs r evs m p q o :
  scoring_log gs rs r evs -> EvCompute m p q o ∈ evs -> p = gs /\ q = rs.
Proof.
  intros Hs Hev. destruct Hs; set_unfold; destruct_or?; by simplify_eq.
Qed.

(** A scorer is only called once the sample loop has completed, with the
    lists of the aligned texts of all [test_batch] samples. *)
Lemma main_log_compute cfg r log m p q o :
  main_log cfg r log -> EvCompute m p q o ∈ log ->
  exists datasets rows,
    EvLoadDataset (DATASET_PATH cfg) (Returned datasets) ∈ log /\
    datasets !! "train" = Some rows /\
    (test_batch <= length rows)%nat /\
    length (generated_of log) = test_batch /\
    p = zip_with aligned_generated (generated_of log) (batch_of rows) /\
    q = zip_with aligned_reference (generated_of log) (batch_of rows).
Proof.
  intros Hmain Hev.
  destruct Hmain as [e|e|datasets Htrain|datasets rows Htrain Hlen
                     |datasets rows e Htrain Hlen
                     |datasets rows generated e Htrain Hlen Hgen
                     |datasets rows generated r evs Htrain Hlen Hgen Hscoring].
  1-5: exfalso; unfold setup_events in *; set_unfold; destruct_or?; by subst.
  - exfalso. apply elem_of_app in Hev as [Hev|Hev].
    + unfold setup_events in *; set_unfold; destruct_or?; by subst.
    + by eapply samples_events_not_compute.
  - assert (generated_of
              (setup_events cfg datasets (Returned ())
               ++ samples_events cfg 0 (batch_of rows) (outcomes generated None)
               ++ evs ++ report_events r) = generated) as Hall.
    { rewrite generated_of_app, generated_of_setup. simpl.
      rewrite generated_of_app.
      rewrite generated_of_samples
        by (rewrite length_outcomes, length_batch_of by done; lia).
      by rewrite (generated_of_scoring _ _ _ _ Hscoring), app_nil_r. }
    rewrite Hall. exists datasets, rows. split_and!; try done.
    { unfold setup_events. set_unfold. tauto. }
    all: apply elem_of_app in Hev as [Hev|Hev];
      [exfalso; unfold setup_events in *; set_unfold; destruct_or?; by subst|].
    all: apply elem_of_app in Hev as [Hev|Hev];
      [exfalso; by eapply samples_events_not_compute|].
    all: apply elem_of_app in Hev as [Hev|Hev];
      [|exfalso; by eapply report_events_not_compute].
    all: by apply (scoring_log_compute _ _ _ _ _ _ _ _ Hscoring) in Hev as [-> ->].
Qed.
End Scoring_facts.

(** ** Alignment of a generated text with its reference (lines 90-91) *)

Section Alignment.
Context `{Collaborators}.

Lemma aligned_generated_spec (g r : pystr) :
  aligned_generated g r = take (Z.to_nat (Z.min (len g) (len r))) g /\
  len (aligned_generated g r) = Z.min (len g) (len r).
Proof.
  pose proof (len_nonneg g). pose proof (len_nonneg r).
  unfold aligned_generated. rewrite len_slice_to_nonneg by lia.
  rewrite slice_to_nonneg by lia. split; [done | lia].
Qed.

Lemma aligned_reference_spec (g r : pystr) :
  aligned_reference g r = take (Z.to_nat (Z.min (len g) (len r))) r /\
  len (aligned_reference g r) = Z.min (len g) (len r).
Proof.
  pose proof (len_nonneg g). pose proof (len_nonneg r).
  unfold aligned_reference. rewrite len_slice_to_nonneg by lia.
  rewrite slice_to_nonneg by lia. split; [done | lia].
Qed.

End Alignment.

(** ** The order of the statements of [main] *)

Section Order.
Context `{Collaborators}.

Lemma steps_samples_completed cfg a records generated :
  length generated = length records ->
  map step_of (samples_events cfg a records (outcomes generated None))
  = flat_map sample_steps (seq a (length records)).
Proof.
  revert a generated. induction records as [|record records IH];
    intros a [|g generated] Hlen; try done.
  change (outcomes (g :: generated) None) with (Returned g :: outcomes generated None).
  cbn [samples_events length seq flat_map]. rewrite map_app.
  rewrite IH by (simpl in Hlen; lia). done.
Qed.

Lemma steps_samples_raised cfg a records generated e :
  (length generated < length records)%nat ->
  map step_of (samples_events cfg a records (outcomes generated (Some e)))
  `prefix_of` flat_map sample_steps (seq a (length records)).
Proof.
  revert a generated. induction records as [|record records IH];
    intros a [|g generated] Hlen; simpl in Hlen; try lia.
  - cbn. destruct records; cbn; by eexists.
  - change (outcomes (g :: generated) (Some e))
      with (Returned g :: outcomes generated (Some e)).
    cbn [samples_events length seq flat_map]. rewrite map_app.
    apply prefix_app. apply IH. lia.
Qed.

Lemma steps_scoring gs rs r evs :
  scoring_log gs rs r evs ->
  map step_of (evs ++ report_events r)
  `prefix_of` [SEvaluateLoad "bleu"; SCompute (length gs) (length rs);
               SEvaluateLoad "rouge"; SCompute (length gs) (length rs);
               SPrint; SPrint] /\
  (forall scores, r = Returned scores ->
     map step_of (evs ++ report_events r)
     = [SEvaluateLoad "bleu"; SCompute (length gs) (length rs);
        SEvaluateLoad "rouge"; SCompute (length gs) (length rs);
        SPrint; SPrint]).
Proof.
  intros Hs. destruct Hs; (split; [|try done]).
  1-4: cbn; by eexists.
  all: intros; cbn [report_events];
    rewrite report_lookup_bleu, report_lookup_rouge; done.
Qed.

Lemma length_aligned_lists generated rows :
  length generated = test_batch -> (test_batch <= length rows)%nat ->
  length (zip_with aligned_generated generated (batch_of rows)) = test_batch /\
  length (zip_with aligned_reference generated (batch_of rows)) = test_batch.
Proof.
  intros Hgen Hlen. rewrite !length_zip_with, length_batch_of by done. lia.
Qed.

Lemma main_log_steps cfg r log :
  main_log cfg r log ->
  map step_of log `prefix_of` expected_steps /\
  (r = Returned tt -> map step_of log = expected_steps).
Proof.
  intros Hmain.
  destruct Hmain as [e|e|datasets Htrain|datasets rows Htrain Hlen
                     |datasets rows e Htrain Hlen
                     |datasets rows generated e Htrain Hlen Hgen
                     |datasets rows generated r evs Htrain Hlen Hgen Hscoring].
  1-5: split; [cbn; by eexists | done].
  - split; [|done]. rewrite map_app. unfold expected_steps.
    change (map step_of (setup_events cfg datasets (Returned ())))
      with [SModelLoad; SLoadDataset; SNewGenerator].
    apply prefix_app. etrans; [|by apply prefix_app_r].
    rewrite <- (length_batch_of rows) by done.
    apply steps_samples_raised. by rewrite length_batch_of.
  - destruct (length_aligned_lists generated rows Hgen Hlen) as [Hgs Hrs].
    destruct (steps_scoring _ _ _ _ Hscoring) as [Hprefix Hall].
    rewrite Hgs, Hrs in Hprefix, Hall.
    rewrite !map_app. unfold expected_steps.
    change (map step_of (setup_events cfg datasets (Returned ())))
      with [SModelLoad; SLoadDataset; SNewGenerator].
    rewrite steps_samples_completed by (by rewrite length_batch_of).
    rewrite length_batch_of by done. rewrite <- map_app. split.
    + by do 2 apply prefix_app.
    + destruct r as [scores|e]; [|done]. intros _.
      by rewrite (Hall scores eq_refl).
Qed.

(** C8.  In every run the statements are executed in one fixed order: for
    each sample in turn its prompt truncation, its generation and its
    alignment (followed by the sample's prints), one sample after the
    other, and only after the ten samples the two scorers, each called with
    lists of ten texts.  A run that raises has executed an initial part of
    that order; a run that returns has executed all of it. *)
Theorem samples_sequential_then_scoring cfg w :
  map step_of (st_log (run cfg w).2) `prefix_of` expected_steps /\
  ((run cfg w).1 = Returned tt ->
   map step_of (st_log (run cfg w).2) = expected_steps) /\
  (forall m p q o,
     EvCompute m p q o ∈ st_log (run cfg w).2 ->
     length p = test_batch /\ length q = test_batch /\
     length (generated_of (st_log (run cfg w).2)) = test_batch).
Proof.
  destruct (main_log_steps cfg _ _ (run_log cfg w)) as [Hprefix Hall].
  split_and!; [done..|].
  intros m p q o Hev.
  destruct (main_log_compute cfg _ _ _ _ _ _ (run_log cfg w) Hev)
    as (datasets & rows & _ & _ & Hlen & Hgen & -> & ->).
  destruct (length_aligned_lists _ rows Hgen Hlen) as [Hgs Hrs]. done.
Qed.
End Order.

(** ** The dataset of a run *)

Section Dataset_facts.
Context `{Collaborators}.

Lemma samples_events_not_dataset cfg a records os ev :
  ev ∈ samples_events cfg a records os -> dataset_event ev -> False.
Proof.
  intros (j & record & o & _ & _ & Hev)%samples_events_elem Hc.
  unfold sample_events in Hev. destruct o; set_unfold; destruct_or?; by subst.
Qed.

Lemma scoring_not_dataset gs rs r evs ev :
  scoring_log gs rs r evs -> ev ∈ evs ++ report_events r ->
  dataset_event ev -> False.
Proof.
  intros Hs [Hev|Hev]%elem_of_app Hd.
  - destruct Hs; set_unfold; destruct_or?; by subst.
  - destruct r as [scores|e]; [|by apply elem_of_nil in Hev].
    unfold report_events in Hev.
    destruct (scores !! "bleu"), (scores !! "rouge");
      set_unfold; destruct_or?; by subst.
Qed.

(** The dataset is loaded once; the call is the second event of the log. *)
Lemma main_log_dataset_event cfg r log path o :
  main_log cfg r log -> EvLoadDataset path o ∈ log ->
  log !! 1%nat = Some (EvLoadDataset path o).
Proof.
  intros Hmain Hev.
  destruct Hmain as [e|e|datasets Htrain|datasets rows Htrain Hlen
                     |datasets rows e Htrain Hlen
                     |datasets rows generated e Htrain Hlen Hgen
                     |datasets rows generated r evs Htrain Hlen Hgen Hscoring].
  1-5: unfold setup_events in *; set_unfold; destruct_or?; by simplify_eq.
  - apply elem_of_app in Hev as [Hev|Hev].
    + unfold setup_events in *; set_unfold; destruct_or?; by simplify_eq.
    + exfalso. by eapply samples_events_not_dataset.
  - apply elem_of_app in Hev as [Hev|Hev].
    + unfold setup_events in *; set_unfold; destruct_or?; by simplify_eq.
    + exfalso. apply elem_of_app in Hev as [Hev|Hev].
      * by eapply samples_events_not_dataset.
      * by eapply scoring_not_dataset.
Qed.

Lemma main_log_dataset_unique cfg r log p1 p2 d1 d2 :
  main_log cfg r log ->
  EvLoadDataset p1 (Returned d1) ∈ log ->
  EvLoadDataset p2 (Returned d2) ∈ log ->
  d1 = d2.
Proof.
  intros Hmain H1%(main_log_dataset_event _ _ _ _ _ Hmain)
               H2%(main_log_dataset_event _ _ _ _ _ Hmain).
  congruence.
Qed.


End Dataset_facts.

(** ** What the scorers receive *)

Section Scored.
Context `{Collaborators}.

Lemma batch_of_lookup rows i rw :
  (i < test_batch)%nat -> rows !! i = Some rw ->
  batch_of rows !! i = Some (text rw).
Proof.
  intros Hi Hrw. unfold batch_of.
  by rewrite list_lookup_fmap, lookup_take_lt, Hrw by done.
Qed.

(** Entry [i] of the lists given to a scorer is the aligned pair of the
    text generated for sample [i] and of record [i]. *)
Lemma scored_pair cfg r log m p q o i g record :
  main_log cfg r log -> EvCompute m p q o ∈ log ->
  generated_of log !! i = Some g -> dataset_record cfg log i record ->
  p !! i = Some (aligned_generated g record) /\
  q !! i = Some (aligned_reference g record).
Proof.
  intros Hmain Hev Hg (datasets' & rows' & rw & Hds' & Htrain' & Hrw & <-).
  destruct (main_log_compute cfg _ _ _ _ _ _ Hmain Hev)
    as (datasets & rows & Hds & Htrain & Hlen & Hgen & -> & ->).
  pose proof (main_log_dataset_unique _ _ _ _ _ _ _ Hmain Hds Hds'). simplify_eq.
  pose proof (lookup_lt_Some _ _ _ Hg) as Hi. rewrite Hgen in Hi.
  rewrite !lookup_zip_with, Hg, (batch_of_lookup _ _ _ Hi Hrw). done.
Qed.

Lemma scored_samples cfg r log m p q o i :
  main_log cfg r log -> EvCompute m p q o ∈ log -> (i < test_batch)%nat ->
  exists g record,
    generated_of log !! i = Some g /\ dataset_record cfg log i record.
Proof.
  intros Hmain Hev Hi.
  destruct (main_log_compute cfg _ _ _ _ _ _ Hmain Hev)
    as (datasets & rows & Hds & Htrain & Hlen & Hgen & -> & ->).
  destruct (lookup_lt_is_Some_2 (generated_of log) i ltac:(lia)) as [g Hg].
  destruct (lookup_lt_is_Some_2 rows i ltac:(lia)) as [rw Hrw].
  exists g, (text rw). split; [done|]. by exists datasets, rows, rw.
Qed.

(** C9.  Whenever a scorer is called, the candidate list and the
    reference list it receives have one entry per sample of the batch, and
    entry [i] of each is a prefix of, respectively, the text generated for
    sample [i] and record [i] of the train split: the lists keep the
    order of the dataset. *)
Theorem aligned_lists_prefixes_in_dataset_order cfg w m p q o :
  EvCompute m p q o ∈ st_log (run cfg w).2 ->
  length p = test_batch /\ length q = test_batch /\ length p = length q /\
  forall i, (i < test_batch)%nat ->
    exists ga ra g r,
      p !! i = Some ga /\ q !! i = Some ra /\
      generated_of (st_log (run cfg w).2) !! i = Some g /\
      dataset_record cfg (st_log (run cfg w).2) i r /\
      ga `prefix_of` g /\ ra `prefix_of` r.
Proof.
  intros Hev. pose proof (run_log cfg w) as Hmain.
  destruct (main_log_compute cfg _ _ _ _ _ _ Hmain Hev)
    as (datasets & rows & _ & _ & Hlen & Hgen & Hp & Hq).
  destruct (length_aligned_lists _ rows Hgen Hlen) as [Hgs Hrs].
  rewrite <- Hp in Hgs. rewrite <- Hq in Hrs.
  split_and!; [done | done | congruence |].
  intros i Hi.
  destruct (scored_samples cfg _ _ _ _ _ _ i Hmain Hev Hi) as (g & r & Hg & Hr).
  destruct (scored_pair cfg _ _ _ _ _ _ i g r Hmain Hev Hg Hr) as [Hpi Hqi].
  exists (aligned_generated g r), (aligned_reference g r), g, r.
  split_and!; try done; apply slice_to_prefix.
Qed.





End Scored.

(** ** The batch (lines 74-77) *)

Section Batch_claims.
Context `{Collaborators}.

Lemma build_batch_inv datasets s r s' :
  build_batch datasets s = (r, s') ->
  s' = s /\
  match datasets !! "train" with
  | None => r = Raised (KeyError "train")
  | Some rows =>
      if decide (test_batch <= length rows)%nat
      then r = Returned (batch_of rows)
      else r = Raised IndexError
  end.
Proof.
  intros Hb. destruct (datasets !! "train") as [rows|] eqn:Htrain.
  - destruct (decide (test_batch <= length rows)%nat).
    + rewrite (build_batch_returned _ rows) in Hb by done. by simplify_eq.
    + rewrite (build_batch_short _ rows) in Hb by (done || lia). by simplify_eq.
  - rewrite build_batch_no_train in Hb by done. by simplify_eq.
Qed.

(** C7.  When the batch loop completes, [test_datasets] holds exactly the
    texts of the first [test_batch = 10] rows of the train split, in the
    order of the split; and the samples that a run processes are those
    records: sample [i] is made from row [i], for [i < 10]. *)
Theorem batch_is_first_ten_records_in_order :
  (forall datasets s batch s',
     build_batch datasets s = (Returned batch, s') ->
     exists rows,
       datasets !! "train" = Some rows /\
       batch = map text (take test_batch rows) /\
       length batch = test_batch /\
       (forall i, (i < test_batch)%nat -> batch !! i = text <$> rows !! i) /\
       s' = s) /\
  (forall cfg w i prompt,
     EvPrompt i prompt ∈ st_log (run cfg w).2 ->
     (i < test_batch)%nat /\
     exists record,
       dataset_record cfg (st_log (run cfg w).2) i record /\
       prompt = slice_to record (CONTEXT_LENGTH cfg)).
Proof.
  split.
  - intros datasets s batch s' Hb.
    destruct (build_batch_inv _ _ _ _ Hb) as [-> Hr].
    destruct (datasets !! "train") as [rows|]; [|done].
    destruct (decide _) as [Hlen|]; [|done]. simplify_eq.
    exists rows. split_and!; try done.
    + by apply length_batch_of.
    + intros i Hi. unfold batch_of.
      by rewrite list_lookup_fmap, lookup_take_lt.
  - intros cfg w i prompt Hev.
    destruct (main_log_sample_event cfg _ _ _ (run_log cfg w) Hev I)
      as (datasets & rows & j & rw & o & Hds & Htrain & Hlen & Hj & Hrw & Hin & _).
    unfold sample_events in Hin.
    destruct o; set_unfold; destruct_or?; simplify_eq.
    all: split; [done|]; exists (text rw); split; [|done].
    all: by exists datasets, rows, rw.
Qed.

End Batch_claims.

(** ** The prompt and the generation parameters (lines 88-89) *)

Section Generation_claims.
Context `{Collaborators}.

(** Every call of the generator is made for one sample [i < test_batch],
    with the arguments of line 89. *)
Lemma generate_call cfg w prompt max_tokens temperature top_k o :
  EvGenerate prompt max_tokens temperature top_k o ∈ st_log (run cfg w).2 ->
  exists i record,
    (i < test_batch)%nat /\
    dataset_record cfg (st_log (run cfg w).2) i record /\
    prompt = slice_to record (CONTEXT_LENGTH cfg) /\
    max_tokens = len record /\
    temperature = temperature_literal /\
    top_k = top_k_literal.
Proof.
  intros Hev.
  destruct (main_log_sample_event cfg _ _ _ (run_log cfg w) Hev I)
    as (datasets & rows & j & rw & o' & Hds & Htrain & Hlen & Hj & Hrw & Hin & _).
  unfold sample_events in Hin.
  destruct o'; set_unfold; destruct_or?; simplify_eq.
  all: exists j, (text rw); split_and!; try done.
  all: by exists datasets, rows, rw.
Qed.


End Generation_claims.

(** ** The empty batch and the worked example *)

Section Evaluator_claims.
Context `{Collaborators}.

End Evaluator_claims.

(** C2.  The reference ["the quick brown fox jumps"] has 25
    characters and the generated text ["the quick brown"] has 15; their
    aligned pair is [("the quick brown", "the quick brown")], both members of
    length 15; and in a run where the text is generated for the sample of
    that record, it is this pair that the scorers receive for the sample. *)
Theorem worked_example_aligned_pair :
  len (lit "the quick brown") = 15 /\
  len (lit "the quick brown fox jumps") = 25 /\
  aligned_generated (lit "the quick brown") (lit "the quick brown fox jumps")
  = lit "the quick brown" /\
  aligned_reference (lit "the quick brown") (lit "the quick brown fox jumps")
  = lit "the quick brown" /\
  len (aligned_generated (lit "the quick brown") (lit "the quick brown fox jumps"))
  = 15 /\
  len (aligned_reference (lit "the quick brown") (lit "the quick brown fox jumps"))
  = 15 /\
  forall (C : Collaborators) cfg w i m p q o,
    dataset_record cfg (st_log (run cfg w).2) i (lit "the quick brown fox jumps") ->
    generated_of (st_log (run cfg w).2) !! i = Some (lit "the quick brown") ->
    EvCompute m p q o ∈ st_log (run cfg w).2 ->
    p !! i = Some (lit "the quick brown") /\
    q !! i = Some (lit "the quick brown").
Proof.
  split_and!; [done..|].
  intros C cfg w i m p q o Hrec Hgen Hev.
  by destruct (scored_pair cfg _ _ _ _ _ _ i _ _ (run_log cfg w) Hev Hgen Hrec).
Qed.

(** ** Runs on concrete collaborators *)




(** ** Counterexamples to the statements of the specification *)

(** C2, as specified: the reference has 25 characters, not 27, and its
    aligned text is ["the quick brown"], not ["the quick "]. *)
Lemma worked_example_as_specified_fails : ~ worked_example_as_specified.
Proof. intros (Hlen & _). vm_compute in Hlen. discriminate. Qed.




(** ** The theorems on a concrete run *)


Lemma worked_example_aligned_pair_witness :
  replicate 10 (lit "the quick brown") !! 0%nat = Some (lit "the quick brown") /\
  replicate 10 (lit "the quick brown") !! 0%nat = Some (lit "the quick brown").
Proof.
  destruct worked_example_aligned_pair as (_ & _ & _ & _ & _ & _ & Hscored).
  apply (Hscored (stub fox_rows fox_generator) (stub_config 16) 0%nat 0%nat
           "bleu" _ _ (Returned 10%nat)).
  - exists (<["train" := fox_rows]> ∅), fox_rows,
      {| text := lit "the quick brown fox jumps" |}.
    split_and!; [|reflexivity..].
    apply (list_elem_of_lookup_2 _ 1%nat). reflexivity.
  - reflexivity.
  - apply (list_elem_of_lookup_2 _ 74%nat). reflexivity.
Defined.





Lemma batch_is_first_ten_records_in_order_witness :
  exists rows,
    (<["train" := fox_rows]> ∅ : DatasetDict) !! "train" = Some rows /\
    replicate 10 (lit "the quick brown fox jumps") = map text (take test_batch rows) /\
    length (replicate 10 (lit "the quick brown fox jumps")) = test_batch /\
    (forall i, (i < test_batch)%nat ->
       replicate 10 (lit "the quick brown fox jumps") !! i = text <$> rows !! i) /\
    @Build_state (stub fox_rows fox_generator) 0%nat []
    = @Build_state (stub fox_rows fox_generator) 0%nat [].
Proof.
  destruct (@batch_is_first_ten_records_in_order (stub fox_rows fox_generator))
    as [Hbatch _].
  apply (Hbatch (<["train" := fox_rows]> ∅)). reflexivity.
Defined.

Lemma samples_sequential_then_scoring_witness :
  map step_of (st_log (@run (stub fox_rows fox_generator) (stub_config 16) 0%nat).2)
  = expected_steps.
Proof.
  destruct (@samples_sequential_then_scoring (stub fox_rows fox_generator)
              (stub_config 16) 0%nat) as (_ & Hall & _).
  apply Hall. reflexivity.
Defined.

Lemma aligned_lists_prefixes_in_dataset_order_witness :
  length (replicate 10 (lit "the quick brown")) = test_batch /\
  length (replicate 10 (lit "the quick brown")) = test_batch /\
  length (replicate 10 (lit "the quick brown"))
  = length (replicate 10 (lit "the quick brown")) /\
  forall i, (i < test_batch)%nat ->
    exists ga ra g r,
      replicate 10 (lit "the quick brown") !! i = Some ga /\
      replicate 10 (lit "the quick brown") !! i = Some ra /\
      generated_of
        (st_log (@run (stub fox_rows fox_generator) (stub_config 16) 0%nat).2) !! i
      = Some g /\
      dataset_record (stub_config 16)
        (st_log (@run (stub fox_rows fox_generator) (stub_config 16) 0%nat).2) i r /\
      ga `prefix_of` g /\ ra `prefix_of` r.
Proof.
  apply (@aligned_lists_prefixes_in_dataset_order (stub fox_rows fox_generator)
           (stub_config 16) 0%nat "bleu" _ _ (Returned 10%nat)).
  apply (list_elem_of_lookup_2 _ 74%nat). reflexivity.
Defined.


(** * Further properties of the script *)

(** ** Slices and alignment *)

Section More_slices.
Context {A : Type}.
Implicit Types s : list A.

Lemma slice_to_nil k : slice_to (@nil A) k = [].
Proof. unfold slice_to. destruct (decide (0 <= k)); apply take_nil. Qed.

Lemma slice_to_negative s k :
  k < 0 -> slice_to s k = take (length s - Z.to_nat (- k)) s.
Proof.
  intros Hk. unfold slice_to. destruct (decide (0 <= k)); [lia|].
  f_equal. unfold len. lia.
Qed.

Lemma len_slice_to_negative s k :
  k < 0 -> len (slice_to s k) = Z.max 0 (len s + k).
Proof.
  intros Hk. rewrite slice_to_negative by done.
  unfold len. rewrite length_take. lia.
Qed.

Lemma len_zero s : len s = 0 -> s = [].
Proof. unfold len. destruct s; [done | simpl; lia]. Qed.
End More_slices.

Lemma aligned_of_shorter (g r : pystr) :
  (len g <= len r ->
   aligned_generated g r = g /\ aligned_reference g r = take (length g) r) /\
  (len r <= len g ->
   aligned_reference g r = r /\ aligned_generated g r = take (length r) g).
Proof.
  pose proof (len_nonneg g). pose proof (len_nonneg r).
  unfold aligned_generated, aligned_reference. split; intros Hlen.
  - rewrite Z.min_l by done. rewrite !slice_to_nonneg by done.
    unfold len. rewrite Nat2Z.id. split; [apply firstn_all | done].
  - rewrite Z.min_r by done. rewrite !slice_to_nonneg by done.
    unfold len. rewrite Nat2Z.id. split; [apply firstn_all | done].
Qed.

(** X1.  Alignment keeps the shorter of the two texts whole and cuts the
    other one to its length: when the generated text has at most as many
    characters as the record it is kept as it is, and when the record has at
    most as many characters as the generated text the record is kept as it
    is. *)
Theorem alignment_keeps_shorter_text_whole (g r : pystr) :
  (len g <= len r ->
   aligned_generated g r = g /\ aligned_reference g r = take (length g) r) /\
  (len r <= len g ->
   aligned_reference g r = r /\ aligned_generated g r = take (length r) g).
Proof. apply aligned_of_shorter. Qed.

(** X2.  Aligning an aligned pair changes nothing, and alignment treats its
    two texts alike: the aligned generated text of [(g, r)] is the aligned
    reference of [(r, g)]. *)
Theorem alignment_is_idempotent_and_symmetric (g r : pystr) :
  aligned_generated (aligned_generated g r) (aligned_reference g r)
  = aligned_generated g r /\
  aligned_reference (aligned_generated g r) (aligned_reference g r)
  = aligned_reference g r /\
  aligned_generated g r = aligned_reference r g.
Proof.
  destruct (aligned_generated_spec g r) as [_ Hg].
  destruct (aligned_reference_spec g r) as [_ Hr].
  destruct (aligned_of_shorter
              (aligned_generated g r) (aligned_reference g r)) as [H1 H2].
  split_and!.
  - apply H1. lia.
  - apply H2. lia.
  - unfold aligned_generated, aligned_reference. by rewrite Z.min_comm.
Qed.

(** ** The passes of the sample loop *)

Section Passes.
Context `{Collaborators}.

Lemma dataset_record_unique cfg r log i r1 r2 :
  main_log cfg r log ->
  dataset_record cfg log i r1 -> dataset_record cfg log i r2 -> r1 = r2.
Proof.
  intros Hmain (d1 & rows1 & rw1 & Hd1 & Ht1 & Hrw1 & <-)
               (d2 & rows2 & rw2 & Hd2 & Ht2 & Hrw2 & <-).
  pose proof (main_log_dataset_unique _ _ _ _ _ _ _ Hmain Hd1 Hd2).
  by simplify_eq.
Qed.

Lemma samples_events_intro cfg a records os j record o ev :
  records !! j = Some record -> os !! j = Some o ->
  ev ∈ sample_events cfg (a + j) record o ->
  ev ∈ samples_events cfg a records os.
Proof.
  revert a os j. induction records as [|record' records IH];
    intros a os j Hrec Ho Hev; [done|].
  destruct os as [|o' os]; [done|]. cbn [samples_events].
  apply elem_of_app. destruct j as [|j].
  - left. simplify_eq/=. by rewrite Nat.add_0_r in Hev.
  - right. apply (IH (S a) os j); [done..|]. by rewrite Nat.add_succ_r in Hev.
Qed.

(** The log of a run that reached the sample loop: the setup, the passes
    of the loop, and what follows the loop. *)
Lemma main_log_decompose cfg r log :
  main_log cfg r log ->
  (forall ev, ev ∈ log ->
              sample_event ev \/ (exists p, ev = EvPrint p) -> False) \/
  exists datasets rows generated err suffix,
    datasets !! "train" = Some rows /\
    (test_batch <= length rows)%nat /\
    log = setup_events cfg datasets (Returned tt)
          ++ samples_events cfg 0 (batch_of rows) (outcomes generated err)
          ++ suffix /\
    generated_of log = generated /\
    (forall ev, ev ∈ suffix -> sample_event ev -> False) /\
    (forall p, EvPrint p ∈ suffix ->
               (exists b, p = PBleu b) \/ (exists b, p = PRouge b)).
Proof.
  intros Hmain.
  destruct Hmain as [e|e|datasets Htrain|datasets rows Htrain Hlen
                     |datasets rows e Htrain Hlen
                     |datasets rows generated e Htrain Hlen Hgen
                     |datasets rows generated r evs Htrain Hlen Hgen Hscoring].
  1-5: left; intros ev Hev [Hs|[p Hp]]; unfold setup_events in *;
       set_unfold; destruct_or?; by subst.
  - right. exists datasets, rows, generated, (Some e), [].
    rewrite app_nil_r. split_and!; try done.
    + rewrite generated_of_app, generated_of_setup. simpl.
      apply generated_of_samples.
      rewrite length_outcomes, length_batch_of by done. lia.
    + by intros ev ?%elem_of_nil.
    + by intros p ?%elem_of_nil.
  - right. exists datasets, rows, generated, None, (evs ++ report_events r).
    split_and!; try done.
    + rewrite generated_of_app, generated_of_setup. simpl.
      rewrite generated_of_app.
      rewrite generated_of_samples
        by (rewrite length_outcomes, length_batch_of by done; lia).
      by rewrite (generated_of_scoring _ _ _ _ Hscoring), app_nil_r.
    + intros ev [Hin|Hin]%elem_of_app Hs.
      * by eapply scoring_log_not_sample.
      * by eapply report_events_not_sample.
    + intros p [Hin|Hin]%elem_of_app.
      * exfalso. destruct Hscoring; set_unfold; destruct_or?; by simplify_eq.
      * destruct r as [scores|e]; [|by apply elem_of_nil in Hin].
        unfold report_events in Hin.
        destruct (scores !! "bleu"), (scores !! "rouge");
          set_unfold; destruct_or?; simplify_eq; eauto.
Qed.

(** Every event of the sample loop comes with all the events of its pass. *)
Lemma main_log_sample_pass cfg r log ev :
  main_log cfg r log -> ev ∈ log -> sample_event ev ->
  exists j record o,
    (j < test_batch)%nat /\
    dataset_record cfg log j record /\
    ev ∈ sample_events cfg j record o /\
    (forall g, o = Returned g -> generated_of log !! j = Some g) /\
    (forall ev', ev' ∈ sample_events cfg j record o -> ev' ∈ log).
Proof.
  intros Hmain Hev Hsample.
  destruct (main_log_decompose _ _ _ Hmain)
    as [Hnone|(datasets & rows & generated & err & suffix
               & Htrain & Hlen & Hlog & Hgen & Hsuffix & _)];
    [exfalso; eapply Hnone; [done | by left]|].
  assert (ev ∈ samples_events cfg 0 (batch_of rows) (outcomes generated err)) as Hmid.
  { rewrite Hlog in Hev. apply elem_of_app in Hev as [Hev|Hev];
      [exfalso; by eapply setup_events_not_sample|].
    apply elem_of_app in Hev as [Hev|Hev]; [done|].
    exfalso. by eapply Hsuffix. }
  apply samples_events_elem in Hmid as (j & record & o & Hrec & Ho & Hin).
  exists j, record, o.
  assert (j < test_batch)%nat as Hj.
  { apply lookup_lt_Some in Hrec. by rewrite length_batch_of in Hrec. }
  split_and!; try done.
  - unfold batch_of in Hrec. rewrite list_lookup_fmap in Hrec.
    destruct (take test_batch rows !! j) as [rw|] eqn:Hrw; [|done].
    apply lookup_take_Some in Hrw as [Hrw _]. injection Hrec as <-.
    exists datasets, rows, rw. split_and!; try done.
    rewrite Hlog. unfold setup_events. set_unfold. tauto.
  - intros g ->. rewrite Hgen. by apply outcomes_lookup_returned in Ho.
  - intros ev' Hev'. rewrite Hlog. apply elem_of_app. right.
    apply elem_of_app. left. by eapply (samples_events_intro _ 0).
Qed.

(** The pair appended for a sample. *)
Lemma append_call cfg w i ga ra :
  EvAppend i ga ra ∈ st_log (run cfg w).2 ->
  exists g record,
    (i < test_batch)%nat /\
    dataset_record cfg (st_log (run cfg w).2) i record /\
    generated_of (st_log (run cfg w).2) !! i = Some g /\
    ga = aligned_generated g record /\
    ra = aligned_reference g record /\
    (forall ev, ev ∈ sample_events cfg i record (Returned g) ->
                ev ∈ st_log (run cfg w).2).
Proof.
  intros Hev.
  destruct (main_log_sample_pass cfg _ _ _ (run_log cfg w) Hev I)
    as (j & record & o & Hj & Hrec & Hin & Hgen & Hall).
  unfold sample_events in Hin.
  destruct o as [g|e]; set_unfold; destruct_or?; simplify_eq.
  exists g, record. split_and!; try done. by apply Hgen.
Qed.

(** The prompt made for a sample. *)
Lemma prompt_step cfg w i prompt :
  EvPrompt i prompt ∈ st_log (run cfg w).2 ->
  exists record,
    (i < test_batch)%nat /\
    dataset_record cfg (st_log (run cfg w).2) i record /\
    prompt = slice_to record (CONTEXT_LENGTH cfg).
Proof.
  intros Hev.
  destruct (main_log_sample_pass cfg _ _ _ (run_log cfg w) Hev I)
    as (j & record & o & Hj & Hrec & Hin & _ & _).
  unfold sample_events in Hin.
  destruct o; set_unfold; destruct_or?; simplify_eq; by exists record.
Qed.
End Passes.

(** ** Edge cases of the sample loop *)

Section Sample_edges.
Context `{Collaborators}.

(** A print of the sample loop belongs to the pass of a sample whose pair
    was appended. *)
Lemma sample_print cfg w p :
  EvPrint p ∈ st_log (run cfg w).2 ->
  (forall b, p <> PBleu b) -> (forall b, p <> PRouge b) ->
  exists i record g,
    EvAppend i (aligned_generated g record) (aligned_reference g record)
      ∈ st_log (run cfg w).2 /\
    EvPrint p ∈ sample_events cfg i record (Returned g).
Proof.
  intros Hev Hbleu Hrouge.
  destruct (main_log_decompose _ _ _ (run_log cfg w))
    as [Hnone|(datasets & rows & generated & err & suffix
               & Htrain & Hlen & Hlog & Hgen & _ & Hprints)];
    [exfalso; eapply Hnone; [done | right; by eexists]|].
  rewrite Hlog in Hev. apply elem_of_app in Hev as [Hev|Hev];
    [exfalso; unfold setup_events in Hev; set_unfold; destruct_or?; by subst|].
  apply elem_of_app in Hev as [Hev|Hev]; last first.
  { exfalso. destruct (Hprints _ Hev) as [[b ->]|[b ->]];
      [by eapply Hbleu | by eapply Hrouge]. }
  apply samples_events_elem in Hev as (j & record & o & Hrec & Ho & Hin).
  unfold sample_events in Hin.
  destruct o as [g|e]; [|set_unfold; destruct_or?; by simplify_eq].
  exists j, record, g. split.
  - rewrite Hlog. apply elem_of_app. right. apply elem_of_app. left.
    eapply (samples_events_intro _ 0); [done..|].
    unfold sample_events. set_unfold. tauto.
  - done.
Qed.

(** X3.  An empty text gives an empty pair: whenever the generator returned
    the empty text for a sample, or the sample's record is empty, both texts
    appended for the sample are empty; for an empty record the prompt is
    empty too, and a call of the generator that asks for zero tokens has an
    empty prompt. *)
Theorem empty_texts_give_empty_pairs cfg w :
  (forall i ga ra,
     EvAppend i ga ra ∈ st_log (run cfg w).2 ->
     generated_of (st_log (run cfg w).2) !! i = Some [] \/
     dataset_record cfg (st_log (run cfg w).2) i [] ->
     ga = [] /\ ra = []) /\
  (forall i prompt,
     EvPrompt i prompt ∈ st_log (run cfg w).2 ->
     dataset_record cfg (st_log (run cfg w).2) i [] ->
     prompt = []) /\
  (forall prompt max_tokens temperature top_k o,
     EvGenerate prompt max_tokens temperature top_k o ∈ st_log (run cfg w).2 ->
     max_tokens = 0 -> prompt = []).
Proof.
  split_and!.
  - intros i ga ra Hev Hempty.
    destruct (append_call _ _ _ _ _ Hev)
      as (g & record & _ & Hrec & Hg & -> & -> & _).
    destruct Hempty as [Hg'|Hrec'].
    + rewrite Hg in Hg'. injection Hg' as ->.
      unfold aligned_generated, aligned_reference. cbn.
      pose proof (len_nonneg record). rewrite Z.min_l by done. done.
    + pose proof (dataset_record_unique _ _ _ _ _ _ (run_log cfg w) Hrec Hrec') as ->.
      unfold aligned_generated, aligned_reference.
      pose proof (len_nonneg g). change (len (@nil N)) with 0.
      rewrite Z.min_r by done. by rewrite slice_to_nil.
  - intros i prompt Hev Hrec'.
    destruct (prompt_step _ _ _ _ Hev) as (record & _ & Hrec & ->).
    pose proof (dataset_record_unique _ _ _ _ _ _ (run_log cfg w) Hrec Hrec') as ->.
    apply slice_to_nil.
  - intros prompt max_tokens temperature top_k o Hev Hzero.
    destruct (generate_call _ _ _ _ _ _ _ Hev)
      as (i & record & _ & _ & -> & -> & _ & _).
    apply len_zero in Hzero as ->. apply slice_to_nil.
Qed.

(** X4.  Whatever the value of [CONTEXT_LENGTH], the prompt of a call of
    the generator is a prefix of the sample's record.  For
    [CONTEXT_LENGTH = 0] it is empty; for a negative [CONTEXT_LENGTH] it is
    the record without its last [-CONTEXT_LENGTH] characters, and empty when
    the record has no more characters than that. *)
Theorem prompt_for_any_context_length cfg w prompt max_tokens temperature top_k o :
  EvGenerate prompt max_tokens temperature top_k o ∈ st_log (run cfg w).2 ->
  exists i record,
    (i < test_batch)%nat /\
    dataset_record cfg (st_log (run cfg w).2) i record /\
    prompt `prefix_of` record /\
    (CONTEXT_LENGTH cfg = 0 -> prompt = []) /\
    (CONTEXT_LENGTH cfg < 0 ->
     prompt = take (length record - Z.to_nat (- CONTEXT_LENGTH cfg)) record /\
     len prompt = Z.max 0 (len record + CONTEXT_LENGTH cfg) /\
     (len record <= - CONTEXT_LENGTH cfg -> prompt = [])).
Proof.
  intros Hev.
  destruct (generate_call _ _ _ _ _ _ _ Hev)
    as (i & record & Hi & Hrec & -> & _ & _ & _).
  exists i, record. split_and!; try done.
  - apply slice_to_prefix.
  - intros ->. by rewrite slice_to_nonneg.
  - intros Hneg. split_and!.
    + by apply slice_to_negative.
    + by apply len_slice_to_negative.
    + intros Hshort. apply len_zero.
      rewrite len_slice_to_negative by done. lia.
Qed.

(** X11.  What is printed for a sample is what was appended for it: the
    pair number is the sample's index plus one, the prompt is printed with
    [max_tokens = len(record)], and the generated and the reference text are
    printed with their numbers of characters, which are equal.  Conversely a
    printed generated or reference text is one that was appended, printed
    with its own length. *)
Theorem sample_prints_show_the_appended_pair cfg w :
  (forall i ga ra,
     EvAppend i ga ra ∈ st_log (run cfg w).2 ->
     len ga = len ra /\
     EvPrint (PPair (Z.of_nat i + 1)) ∈ st_log (run cfg w).2 /\
     EvPrint (PGenerated (len ga) ga) ∈ st_log (run cfg w).2 /\
     EvPrint (PReference (len ra) ra) ∈ st_log (run cfg w).2 /\
     exists record,
       dataset_record cfg (st_log (run cfg w).2) i record /\
       EvPrint (PPrompt (slice_to record (CONTEXT_LENGTH cfg)) (len record))
         ∈ st_log (run cfg w).2) /\
  (forall n t,
     EvPrint (PGenerated n t) ∈ st_log (run cfg w).2 ->
     n = len t /\ exists i ra, EvAppend i t ra ∈ st_log (run cfg w).2) /\
  (forall n t,
     EvPrint (PReference n t) ∈ st_log (run cfg w).2 ->
     n = len t /\ exists i ga, EvAppend i ga t ∈ st_log (run cfg w).2) /\
  (forall n,
     EvPrint (PPair n) ∈ st_log (run cfg w).2 -> 1 <= n <= Z.of_nat test_batch).
Proof.
  split_and!.
  - intros i ga ra Hev.
    destruct (append_call _ _ _ _ _ Hev)
      as (g & record & _ & Hrec & Hg & -> & -> & Hall).
    destruct (aligned_generated_spec g record) as [_ Hlg].
    destruct (aligned_reference_spec g record) as [_ Hlr].
    split_and!; [lia | | | |].
    1-3: apply Hall; unfold sample_events; set_unfold; tauto.
    exists record. split; [done|].
    apply Hall; unfold sample_events; set_unfold; tauto.
  - intros n t Hev.
    destruct (sample_print _ _ _ Hev) as (i & record & g & Happ & Hin); [done..|].
    unfold sample_events in Hin. set_unfold; destruct_or?; simplify_eq.
    split; [done|]. by eexists _, _.
  - intros n t Hev.
    destruct (sample_print _ _ _ Hev) as (i & record & g & Happ & Hin); [done..|].
    unfold sample_events in Hin. set_unfold; destruct_or?; simplify_eq.
    split; [done|]. by eexists _, _.
  - intros n Hev.
    destruct (sample_print _ _ _ Hev) as (i & record & g & Happ & Hin); [done..|].
    destruct (append_call _ _ _ _ _ Happ) as (_ & _ & Hi & _).
    unfold sample_events in Hin. set_unfold; destruct_or?; simplify_eq.
    unfold test_batch in *. lia.
Qed.
End Sample_edges.

(** ** The lists given to the scorers, and the report *)

Section More_scoring.
Context `{Collaborators}.

Lemma zip_with_keeps_right {X Y} (f : X -> Y -> Y) (P : X -> Y -> Prop) xs ys :
  (forall x y, P x y -> f x y = y) -> Forall2 P xs ys -> zip_with f xs ys = ys.
Proof. intros Hf Hall. induction Hall; cbn; [done|]. f_equal; auto. Qed.

Lemma zip_with_keeps_left {X Y} (f : X -> Y -> X) (P : X -> Y -> Prop) xs ys :
  (forall x y, P x y -> f x y = x) -> Forall2 P xs ys -> zip_with f xs ys = xs.
Proof. intros Hf Hall. induction Hall; cbn; [done|]. f_equal; auto. Qed.

Lemma train_split_unique cfg r log rows1 rows2 :
  main_log cfg r log ->
  train_split cfg log rows1 -> train_split cfg log rows2 -> rows1 = rows2.
Proof.
  intros Hmain (d1 & Hd1 & Ht1) (d2 & Hd2 & Ht2).
  pose proof (main_log_dataset_unique _ _ _ _ _ _ _ Hmain Hd1 Hd2).
  by simplify_eq.
Qed.

(** X5.  When every generated text has at least as many characters as its
    record, the reference list that the scorers receive is the batch itself,
    the first ten records untouched; when every generated text has at most
    as many characters as its record, the candidate list is the list of the
    generated texts untouched. *)
Theorem unequal_lengths_cut_one_list_only cfg w rows m p q o :
  train_split cfg (st_log (run cfg w).2) rows ->
  EvCompute m p q o ∈ st_log (run cfg w).2 ->
  (Forall2 (fun g record => len record <= len g)
     (generated_of (st_log (run cfg w).2)) (batch_of rows) ->
   q = batch_of rows) /\
  (Forall2 (fun g record => len g <= len record)
     (generated_of (st_log (run cfg w).2)) (batch_of rows) ->
   p = generated_of (st_log (run cfg w).2)).
Proof.
  intros Hrows Hev. pose proof (run_log cfg w) as Hmain.
  destruct (main_log_compute cfg _ _ _ _ _ _ Hmain Hev)
    as (datasets & rows' & Hds & Htrain & _ & _ & -> & ->).
  assert (rows' = rows) as ->.
  { eapply train_split_unique; [done| |done]. by exists datasets. }
  split; intros Hall.
  - eapply zip_with_keeps_right; [|done].
    intros g record Hlen. by apply aligned_of_shorter.
  - eapply zip_with_keeps_left; [|done].
    intros g record Hlen. by apply aligned_of_shorter.
Qed.

(** X9.  The report of [evaluate_texts] has exactly the two keys ['bleu']
    and ['rouge'], each with the value that the scorer of that name
    returned; it has no other entry. *)
Theorem report_has_exactly_bleu_and_rouge gs rs s report :
  (evaluate_texts gs rs s).1 = Returned report ->
  dom report = {["bleu"; "rouge"]} /\
  (forall key, is_Some (report !! key) <-> key = "bleu" \/ key = "rouge") /\
  exists bleu rouge bleu_score rouge_score evs,
    st_log (evaluate_texts gs rs s).2 = st_log s ++ evs /\
    EvEvaluateLoad "bleu" (Returned bleu) ∈ evs /\
    EvCompute bleu gs rs (Returned bleu_score) ∈ evs /\
    EvEvaluateLoad "rouge" (Returned rouge) ∈ evs /\
    EvCompute rouge gs rs (Returned rouge_score) ∈ evs /\
    report !! "bleu" = Some bleu_score /\
    report !! "rouge" = Some rouge_score.
Proof.
  intros Hr. destruct (evaluate_texts_log gs rs s) as (evs & Hlog & Hs).
  rewrite Hr in Hs.
  inversion Hs as [| | | |bleu bleu_score rouge rouge_score]; subst.
  assert (dom (<["bleu" := bleu_score]> (<["rouge" := rouge_score]>
                 (∅ : gmap string score))) = ({["bleu"; "rouge"]} : gset string))
    as Hdom by (rewrite !dom_insert_L, dom_empty_L; set_solver).
  split_and!.
  - done.
  - intros key. rewrite <- elem_of_dom, Hdom. set_solver.
  - eexists bleu, rouge, bleu_score, rouge_score, _.
    split; [exact Hlog|]. split_and!.
    1-4: set_unfold; tauto.
    + apply report_lookup_bleu.
    + apply report_lookup_rouge.
Qed.
End More_scoring.

(** ** Exceptions *)

Section Fail_fast.
Context `{Collaborators}.

Lemma exceptions_of_app l1 l2 :
  exceptions_of (l1 ++ l2) = exceptions_of l1 ++ exceptions_of l2.
Proof. apply omap_app. Qed.

Lemma exceptions_of_samples cfg a records generated err :
  (length (outcomes generated err) <= length records)%nat ->
  exceptions_of (samples_events cfg a records (outcomes generated err))
  = match err with Some e => [e] | None => [] end.
Proof.
  revert a generated. induction records as [|record records IH];
    intros a generated Hlen.
  - rewrite length_outcomes in Hlen.
    destruct generated, err; simpl in Hlen; try lia. done.
  - destruct generated as [|g generated].
    + destruct err as [e|]; [|done]. cbn. by destruct records.
    + change (outcomes (g :: generated) err)
        with (Returned g :: outcomes generated err) in *.
      cbn [samples_events]. rewrite exceptions_of_app. cbn.
      apply IH. simpl in Hlen. lia.
Qed.

Lemma samples_events_raised_last cfg a records generated e :
  (length generated < length records)%nat ->
  exists before ev,
    samples_events cfg a records (outcomes generated (Some e)) = before ++ [ev] /\
    raised_of ev = Some e.
Proof.
  revert a generated. induction records as [|record records IH];
    intros a generated Hlen; [simpl in Hlen; lia|].
  destruct generated as [|g generated].
  - eexists [_], _. cbn. split; [by destruct records | done].
  - change (outcomes (g :: generated) (Some e))
      with (Returned g :: outcomes generated (Some e)).
    cbn [samples_events].
    destruct (IH (S a) generated) as (before & ev & -> & Hev);
      [simpl in Hlen; lia|].
    exists (sample_events cfg a record (Returned g) ++ before), ev.
    by rewrite <- app_assoc.
Qed.

Lemma scoring_log_exceptions gs rs r evs :
  scoring_log gs rs r evs ->
  exceptions_of (evs ++ report_events r) = external_of r /\
  (forall e, r = Raised e ->
     exists x before ev,
       e = External x /\ evs ++ report_events r = before ++ [ev] /\
       raised_of ev = Some x).
Proof.
  intros Hs. destruct Hs.
  5:{ split; [|done]. cbn [report_events].
      by rewrite report_lookup_bleu, report_lookup_rouge. }
  all: split; [done|]; intros e' [= <-].
  - by eexists _, [], _.
  - by eexists _, [_], _.
  - by eexists _, [_; _], _.
  - by eexists _, [_; _; _], _.
Qed.

(** X8.  [evaluate_texts] stops at the first collaborator that raises: at
    most one of its calls raised, that call is the last one it made, and its
    exception is the one [evaluate_texts] raises; when [evaluate_texts]
    returns, no call raised.  It raises no exception of its own. *)
Theorem evaluate_texts_stops_at_first_exception gs rs s :
  exists evs,
    st_log (evaluate_texts gs rs s).2 = st_log s ++ evs /\
    exceptions_of evs = external_of (evaluate_texts gs rs s).1 /\
    (forall e,
       (evaluate_texts gs rs s).1 = Raised e ->
       exists x before ev,
         e = External x /\ evs = before ++ [ev] /\ raised_of ev = Some x).
Proof.
  destruct (evaluate_texts_log gs rs s) as (evs & Hlog & Hs).
  exists evs. split; [done|].
  destruct (scoring_log_exceptions _ _ _ _ Hs) as [Hexc Hlast].
  destruct (evaluate_texts gs rs s).1 as [report|e] eqn:Hr.
  - split; [|done]. rewrite exceptions_of_app in Hexc.
    by apply app_eq_nil in Hexc as [-> _].
  - cbn [report_events] in Hexc, Hlast. rewrite app_nil_r in Hexc, Hlast.
    split; [done|]. intros e' [= <-]. by apply Hlast.
Qed.

Lemma main_log_exceptions cfg r log :
  main_log cfg r log ->
  exceptions_of log = external_of r /\
  (forall x, r = Raised (External x) ->
     exists before ev, log = before ++ [ev] /\ raised_of ev = Some x).
Proof.
  intros Hmain.
  destruct Hmain as [e|e|datasets Htrain|datasets rows Htrain Hlen
                     |datasets rows e Htrain Hlen
                     |datasets rows generated e Htrain Hlen Hgen
                     |datasets rows generated r evs Htrain Hlen Hgen Hscoring].
  - split; [done|]. intros x [= <-]. by eexists [], _.
  - split; [done|]. intros x [= <-]. by eexists [_], _.
  - done.
  - done.
  - split; [done|]. intros x [= <-]. by eexists [_; _], _.
  - split.
    + rewrite exceptions_of_app. cbn [setup_events]. 
      rewrite exceptions_of_samples
        by (rewrite length_outcomes, length_batch_of by done; lia).
      done.
    + intros x [= <-].
      destruct (samples_events_raised_last cfg 0 (batch_of rows) generated e)
        as (before & ev & -> & Hev); [by rewrite length_batch_of|].
      exists (setup_events cfg datasets (Returned ()) ++ before), ev.
      by rewrite <- app_assoc.
  - destruct (scoring_log_exceptions _ _ _ _ Hscoring) as [Hexc Hlast].
    split.
    + rewrite !exceptions_of_app.
      rewrite exceptions_of_samples
        by (rewrite length_outcomes, length_batch_of by done; lia).
      rewrite <- exceptions_of_app, Hexc. cbn. by destruct r as [|[]].
    + intros x Hr. destruct r as [report|e]; [done|]. injection Hr as ->.
      destruct (Hlast _ eq_refl) as (x' & before & ev & [= <-] & Heq & Hev).
      rewrite Heq.
      exists (setup_events cfg datasets (Returned ())
              ++ samples_events cfg 0 (batch_of rows) (outcomes generated None)
              ++ before), ev.
      split; [|done]. by rewrite <- !app_assoc.
Qed.

(** X7.  The script handles no exception: in every run at most one call of
    a collaborator raised, that call is the last event of the run, and its
    exception is the one the run ends with.  A run that returns, or that
    ends with [KeyError] or [IndexError], had no call that raised. *)
Theorem run_stops_at_first_exception cfg w :
  exceptions_of (st_log (run cfg w).2) = external_of (run cfg w).1 /\
  (forall x,
     (run cfg w).1 = Raised (External x) ->
     exists before ev,
       st_log (run cfg w).2 = before ++ [ev] /\ raised_of ev = Some x).
Proof. apply (main_log_exceptions cfg), run_log. Qed.


(** X10.  A run that returns ends by printing the BLEU score and then the
    ROUGE score, which are the values returned by the two scorer calls made
    just before; and the scores are printed only by a run that returns. *)
Theorem returned_run_prints_the_scores cfg w :
  ((run cfg w).1 = Returned tt ->
   exists before bleu rouge bleu_score rouge_score gs rs,
     st_log (run cfg w).2
     = before ++ [EvEvaluateLoad "bleu" (Returned bleu);
                  EvCompute bleu gs rs (Returned bleu_score);
                  EvEvaluateLoad "rouge" (Returned rouge);
                  EvCompute rouge gs rs (Returned rouge_score);
                  EvPrint (PBleu bleu_score);
                  EvPrint (PRouge rouge_score)]) /\
  (forall b,
     EvPrint (PBleu b) ∈ st_log (run cfg w).2 \/
     EvPrint (PRouge b) ∈ st_log (run cfg w).2 ->
     (run cfg w).1 = Returned tt).
Proof.
  pose proof (run_log cfg w) as Hmain. split.
  - intros Hr. rewrite Hr in Hmain.
    inversion Hmain as [| | | | | |datasets rows generated r evs Htrain Hlen Hgen Hs Hr' Hlog].
    destruct Hs; try done.
    cbn [report_events]. rewrite report_lookup_bleu, report_lookup_rouge.
    exists (setup_events cfg datasets (Returned ())
            ++ samples_events cfg 0 (batch_of rows) (outcomes generated None)),
      bleu, rouge, bleu_score, rouge_score,
      (zip_with aligned_generated generated (batch_of rows)),
      (zip_with aligned_reference generated (batch_of rows)).
    by rewrite <- !app_assoc.
  - intros b Hev.
    destruct Hmain as [e|e|datasets' Htrain'|datasets' rows' Htrain' Hlen'
                       |datasets' rows' e Htrain' Hlen'
                       |datasets' rows' generated' e Htrain' Hlen' Hgen'
                       |datasets' rows' generated' r evs Htrain' Hlen' Hgen' Hscoring].
    1-5: exfalso; unfold setup_events in *; destruct Hev as [Hev|Hev];
         set_unfold; destruct_or?; by subst.
    + exfalso. destruct Hev as [Hev|Hev].
      all: apply elem_of_app in Hev as [Hev|Hev];
        [unfold setup_events in *; set_unfold; destruct_or?; by subst|].
      all: apply samples_events_elem in Hev as (j & record & o & _ & _ & Hin).
      all: unfold sample_events in Hin.
      all: destruct o; set_unfold; destruct_or?; by simplify_eq.
    + destruct r as [report|e]; [done|]. exfalso.
      cbn [report_events] in Hev. rewrite app_nil_r in Hev.
      destruct Hev as [Hev|Hev].
      all: apply elem_of_app in Hev as [Hev|Hev];
        [unfold setup_events in *; set_unfold; destruct_or?; by subst|].
      all: apply elem_of_app in Hev as [Hev|Hev].
      1,3: apply samples_events_elem in Hev as (j & record & o & _ & _ & Hin);
           unfold sample_events in Hin;
           destruct o; set_unfold; destruct_or?; by simplify_eq.
      all: inversion Hscoring; subst; set_unfold; destruct_or?; by simplify_eq.
Qed.
End Fail_fast.

(** ** The configuration *)

Section Configuration_use.
Context `{Collaborators}.

(** X12.  Of the configuration, a run reads [CONTEXT_LENGTH], [MODEL_PATH],
    [DATASET_PATH] and [DEVICE] only: two configurations that agree on these
    four attributes give the same run, whatever their [D_MODEL], [D_FF],
    [NUM_BLOCKS], [NUM_HEADS] and [DROP_OUT]. *)
Theorem run_reads_four_attributes_only cfg1 cfg2 s :
  CONTEXT_LENGTH cfg1 = CONTEXT_LENGTH cfg2 ->
  MODEL_PATH cfg1 = MODEL_PATH cfg2 ->
  DATASET_PATH cfg1 = DATASET_PATH cfg2 ->
  DEVICE cfg1 = DEVICE cfg2 ->
  main cfg1 s = main cfg2 s.
Proof.
  intros Hcl Hmodel Hdataset Hdevice.
  unfold main, make_pairs, sample_step.
  by rewrite Hcl, Hmodel, Hdataset, Hdevice.
Qed.
End Configuration_use.

Lemma subscript_returned v key x :
  subscript v key = Returned x <-> exists d, v = JDict d /\ d !! key = Some x.
Proof.
  split.
  - destruct v; try done. cbn. destruct (d !! key) eqn:Hd; [|done].
    intros [= <-]. by exists d.
  - intros (d & -> & Hd). cbn. by rewrite Hd.
Qed.

Lemma config_entry_returned config section key x :
  config_entry config section key = Returned x <->
  exists top sec,
    config = JDict top /\ top !! section = Some (JDict sec) /\ sec !! key = Some x.
Proof.
  unfold config_entry. split.
  - destruct (subscript config section) as [v|e] eqn:Hsec; [|done].
    intros Hkey. apply subscript_returned in Hsec as (top & -> & Htop).
    apply subscript_returned in Hkey as (sec & -> & Hkey). by exists top, sec.
  - intros (top & sec & -> & Htop & Hkey). cbn. rewrite Htop. cbn. by rewrite Hkey.
Qed.

(** X13.  Creating [class ModelConfig] succeeds exactly when [config] is a
    JSON object whose ['model'] and ['train'] entries are objects holding
    the six, respectively two, keys that the class body reads.  The
    attributes are then the values stored under those keys, whatever they
    are: nothing checks their types or the constraints that the comments
    state; and [DEVICE] is ['cuda'] or ['cpu'] as CUDA is available or
    not. *)
Theorem class_body_returns_iff_keys_present config cuda attrs :
  class_body config cuda = Returned attrs <->
  exists top model train,
    config = JDict top /\
    top !! "model" = Some (JDict model) /\
    top !! "train" = Some (JDict train) /\
    model !! "context_length" = Some (attr_CONTEXT_LENGTH attrs) /\
    model !! "d_model" = Some (attr_D_MODEL attrs) /\
    model !! "d_ff" = Some (attr_D_FF attrs) /\
    model !! "num_blocks" = Some (attr_NUM_BLOCKS attrs) /\
    model !! "num_heads" = Some (attr_NUM_HEADS attrs) /\
    model !! "dropout" = Some (attr_DROP_OUT attrs) /\
    train !! "model_path" = Some (attr_MODEL_PATH attrs) /\
    train !! "dataset_path" = Some (attr_DATASET_PATH attrs) /\
    attr_DEVICE attrs = (if cuda then "cuda" else "cpu").
Proof.
  unfold class_body. split.
  - destruct (config_entry config "model" "context_length") as [v1|] eqn:H1; [|done].
    destruct (config_entry config "model" "d_model") as [v2|] eqn:H2; [|done].
    destruct (config_entry config "model" "d_ff") as [v3|] eqn:H3; [|done].
    destruct (config_entry config "model" "num_blocks") as [v4|] eqn:H4; [|done].
    destruct (config_entry config "model" "num_heads") as [v5|] eqn:H5; [|done].
    destruct (config_entry config "model" "dropout") as [v6|] eqn:H6; [|done].
    destruct (config_entry config "train" "model_path") as [v7|] eqn:H7; [|done].
    destruct (config_entry config "train" "dataset_path") as [v8|] eqn:H8; [|done].
    cbn. intros [= <-]. cbn.
    apply config_entry_returned in H1 as (top & model & -> & Hmodel & H1).
    apply config_entry_returned in H2 as (? & ? & [= <-] & ? & H2).
    apply config_entry_returned in H3 as (? & ? & [= <-] & ? & H3).
    apply config_entry_returned in H4 as (? & ? & [= <-] & ? & H4).
    apply config_entry_returned in H5 as (? & ? & [= <-] & ? & H5).
    apply config_entry_returned in H6 as (? & ? & [= <-] & ? & H6).
    apply config_entry_returned in H7 as (? & train & [= <-] & Htrain & H7).
    apply config_entry_returned in H8 as (? & ? & [= <-] & ? & H8).
    simplify_eq. by exists top, model, train.
  - intros (top & model & train & -> & Hmodel & Htrain
            & H1 & H2 & H3 & H4 & H5 & H6 & H7 & H8 & Hdevice).
    rewrite !(proj2 (config_entry_returned _ _ _ _))
      by (eexists _, _; split_and!; done).
    cbn. rewrite <- Hdevice. by destruct attrs.
Qed.

(** X14.  Creating [class ModelConfig] fails exactly when one of the eight
    reads of [config] fails, and then with the exception of the first read
    that fails, in the order of the lines of the class body. *)
Theorem class_body_raises_first_failure config cuda err :
  class_body config cuda = Raised err <->
  exists before entry after,
    class_entries = before ++ entry :: after /\
    Forall (fun e => exists v, config_entry config e.1 e.2 = Returned v) before /\
    config_entry config entry.1 entry.2 = Raised err.
Proof.
  unfold class_body, class_entries. split.
  - destruct (config_entry config "model" "context_length") as [v1|e1] eqn:H1;
      [|intros [= <-]; by eexists [], _, _].
    destruct (config_entry config "model" "d_model") as [v2|] eqn:H2;
      [|intros [= <-]; eexists [_], _, _; split_and!; [done| |done];
        repeat constructor; by eexists].
    destruct (config_entry config "model" "d_ff") as [v3|] eqn:H3;
      [|intros [= <-]; eexists [_; _], _, _; split_and!; [done| |done];
        repeat constructor; by eexists].
    destruct (config_entry config "model" "num_blocks") as [v4|] eqn:H4;
      [|intros [= <-]; eexists [_; _; _], _, _; split_and!; [done| |done];
        repeat constructor; by eexists].
    destruct (config_entry config "model" "num_heads") as [v5|] eqn:H5;
      [|intros [= <-]; eexists [_; _; _; _], _, _; split_and!; [done| |done];
        repeat constructor; by eexists].
    destruct (config_entry config "model" "dropout") as [v6|] eqn:H6;
      [|intros [= <-]; eexists [_; _; _; _; _], _, _; split_and!; [done| |done];
        repeat constructor; by eexists].
    destruct (config_entry config "train" "model_path") as [v7|] eqn:H7;
      [|intros [= <-]; eexists [_; _; _; _; _; _], _, _; split_and!; [done| |done];
        repeat constructor; by eexists].
    destruct (config_entry config "train" "dataset_path") as [v8|] eqn:H8;
      [|intros [= <-]; eexists [_; _; _; _; _; _; _], _, _; split_and!; [done| |done];
        repeat constructor; by eexists].
    done.
  - intros (before & entry & after & Heq & Hbefore & Herr).
    repeat (destruct before as [|? before]; cbn [app] in Heq;
            [try discriminate Heq; injection Heq as <- <-;
             cbn [fst snd] in Herr; by rewrite Herr
            |try discriminate Heq; injection Heq as <- Heq;
             apply Forall_cons in Hbefore as [[? Hv] Hbefore];
             cbn [fst snd] in Hv; rewrite Hv; clear Hv; cbn [and_then]]).
Qed.

(** X15.  The exception of a failed read [config[section][key]] tells what
    is missing: [KeyError(section)] when [config] is an object without the
    section, [KeyError(key)] when the section is an object without the key,
    and [TypeError] when [config] or the section is not an object. *)
Theorem config_entry_error_names_what_is_missing config section key err :
  config_entry config section key = Raised err <->
  (err = ConfigTypeError /\ forall top, config <> JDict top) \/
  (exists top, config = JDict top /\ top !! section = None /\
               err = ConfigKeyError section) \/
  (exists top sec, config = JDict top /\ top !! section = Some sec /\
                   err = ConfigTypeError /\ forall d, sec <> JDict d) \/
  (exists top d, config = JDict top /\ top !! section = Some (JDict d) /\
                 d !! key = None /\ err = ConfigKeyError key).
Proof.
  unfold config_entry. split.
  - destruct config as [| | | | | |top]; cbn; try (intros [= <-]; by left).
    destruct (top !! section) as [sec|] eqn:Hsec; cbn;
      [|intros [= <-]; right; left; by exists top].
    destruct sec as [| | | | | |d]; cbn;
      try (intros [= <-]; right; right; left; by eexists top, _).
    destruct (d !! key) eqn:Hkey; [done|].
    intros [= <-]. right; right; right. by exists top, d.
  - intros [(-> & Hnot)|[(top & -> & Hsec & ->)|[(top & sec & -> & Hsec & -> & Hnot)
                                                 |(top & d & -> & Hsec & Hkey & ->)]]].
    + destruct config; try done. by destruct (Hnot d).
    + cbn. by rewrite Hsec.
    + cbn. rewrite Hsec. cbn. destruct sec; try done. by destruct (Hnot d).
    + cbn. rewrite Hsec. cbn. by rewrite Hkey.
Qed.

(** ** The further properties on concrete runs *)

Lemma alignment_keeps_shorter_text_whole_witness :
  aligned_generated (lit "the quick brown") (lit "the quick brown fox jumps")
  = lit "the quick brown" /\
  aligned_reference (lit "the quick brown") (lit "the quick brown fox jumps")
  = take (length (lit "the quick brown")) (lit "the quick brown fox jumps").
Proof.
  apply (proj1 (alignment_keeps_shorter_text_whole
                  (lit "the quick brown") (lit "the quick brown fox jumps"))).
  vm_compute. discriminate.
Defined.

Lemma empty_texts_give_empty_pairs_witness :
  aligned_generated [] (lit "the quick brown fox jumps") = [] /\
  aligned_reference [] (lit "the quick brown fox jumps") = [].
Proof.
  apply (proj1 (@empty_texts_give_empty_pairs
                  (stub fox_rows silent_generator) (stub_config 16) 0%nat) 0%nat).
  - apply (list_elem_of_lookup_2 _ 5%nat). reflexivity.
  - left. reflexivity.
Defined.

Lemma prompt_for_any_context_length_witness :
  exists i record,
    (i < test_batch)%nat /\
    dataset_record (stub_config (-6))
      (st_log (@run (stub fox_rows fox_generator) (stub_config (-6)) 0%nat).2)
      i record /\
    lit "the quick brown fox" `prefix_of` record /\
    (-6 = 0 -> lit "the quick brown fox" = []) /\
    (-6 < 0 ->
     lit "the quick brown fox" = take (length record - Z.to_nat (- -6)) record /\
     len (lit "the quick brown fox") = Z.max 0 (len record + -6) /\
     (len record <= - -6 -> lit "the quick brown fox" = [])).
Proof.
  apply (@prompt_for_any_context_length (stub fox_rows fox_generator)
           (stub_config (-6)) 0%nat (lit "the quick brown fox") 25 (7 # 10) 50
           (Returned (lit "the quick brown"))).
  apply (list_elem_of_lookup_2 _ 4%nat). reflexivity.
Defined.

Lemma unequal_lengths_cut_one_list_only_witness :
  replicate 10 (lit "the quick brown fox jumps") = batch_of fox_rows.
Proof.
  destruct (@unequal_lengths_cut_one_list_only
              (stub fox_rows long_generator) (stub_config 16) 0%nat fox_rows
              "bleu" (replicate 10 (lit "the quick brown fox jumps"))
              (replicate 10 (lit "the quick brown fox jumps"))
              (Returned 10%nat)) as [Hreferences _].
  - exists (<["train" := fox_rows]> ∅). split; [|reflexivity].
    apply (list_elem_of_lookup_2 _ 1%nat). reflexivity.
  - apply (list_elem_of_lookup_2 _ 74%nat). reflexivity.
  - apply Hreferences. repeat constructor; vm_compute; discriminate.
Defined.


Lemma run_stops_at_first_exception_witness :
  exists before ev,
    st_log (@run (flaky_stub fox_rows fox_generator 5) (stub_config 16) 0%nat).2
    = before ++ [ev] /\
    @raised_of (flaky_stub fox_rows fox_generator 5) ev = Some "unavailable".
Proof.
  apply (proj2 (@run_stops_at_first_exception
                  (flaky_stub fox_rows fox_generator 5) (stub_config 16) 0%nat)).
  reflexivity.
Defined.

Lemma evaluate_texts_stops_at_first_exception_witness :
  exists evs,
    st_log (@evaluate_texts (flaky_stub fox_rows fox_generator 1)
              [lit "a"] [lit "a"]
              (@Build_state (flaky_stub fox_rows fox_generator 1) 0%nat [])).2
    = [] ++ evs /\
    exists x before ev,
      @External (flaky_stub fox_rows fox_generator 1) "unavailable"
      = External x /\
      evs = before ++ [ev] /\
      @raised_of (flaky_stub fox_rows fox_generator 1) ev = Some x.
Proof.
  destruct (@evaluate_texts_stops_at_first_exception
              (flaky_stub fox_rows fox_generator 1) [lit "a"] [lit "a"]
              (@Build_state (flaky_stub fox_rows fox_generator 1) 0%nat []))
    as (evs & Hlog & _ & Hlast).
  exists evs. split; [exact Hlog|]. apply Hlast. reflexivity.
Defined.

Lemma report_has_exactly_bleu_and_rouge_witness :
  dom (<["bleu" := 1%nat]> (<["rouge" := 1%nat]> (∅ : gmap string nat)))
  = ({["bleu"; "rouge"]} : gset string).
Proof.
  apply (proj1 (@report_has_exactly_bleu_and_rouge (stub fox_rows fox_generator)
                  [lit "a"] [lit "a"]
                  (@Build_state (stub fox_rows fox_generator) 0%nat [])
                  (<["bleu" := 1%nat]> (<["rouge" := 1%nat]> ∅)) eq_refl)).
Defined.

Lemma returned_run_prints_the_scores_witness :
  exists before bleu rouge bleu_score rouge_score gs rs,
    st_log (@run (stub fox_rows fox_generator) (stub_config 16) 0%nat).2
    = before ++ [EvEvaluateLoad "bleu" (Returned bleu);
                 EvCompute bleu gs rs (Returned bleu_score);
                 EvEvaluateLoad "rouge" (Returned rouge);
                 EvCompute rouge gs rs (Returned rouge_score);
                 EvPrint (PBleu bleu_score);
                 EvPrint (PRouge rouge_score)].
Proof.
  apply (proj1 (@returned_run_prints_the_scores (stub fox_rows fox_generator)
                  (stub_config 16) 0%nat)).
  reflexivity.
Defined.

Lemma sample_prints_show_the_appended_pair_witness :
  @EvPrint (stub fox_rows fox_generator) (PPair (Z.of_nat 0 + 1))
  ∈ st_log (@run (stub fox_rows fox_generator) (stub_config 16) 0%nat).2.
Proof.
  destruct (proj1 (@sample_prints_show_the_appended_pair
                     (stub fox_rows fox_generator) (stub_config 16) 0%nat)
              0%nat (lit "the quick brown") (lit "the quick brown"))
    as (_ & Hpair & _).
  - apply (list_elem_of_lookup_2 _ 5%nat). reflexivity.
  - exact Hpair.
Defined.

Lemma run_reads_four_attributes_only_witness :
  @main (stub fox_rows fox_generator) (stub_config 16)
    (@Build_state (stub fox_rows fox_generator) 0%nat [])
  = @main (stub fox_rows fox_generator) (wide_config 16)
      (@Build_state (stub fox_rows fox_generator) 0%nat []).
Proof.
  apply (@run_reads_four_attributes_only (stub fox_rows fox_generator)
           (stub_config 16) (wide_config 16)); reflexivity.
Defined.

Lemma class_body_returns_iff_keys_present_witness :
  class_body example_config true
  = Returned {| attr_CONTEXT_LENGTH := JInt 16;
                attr_D_MODEL := JInt 64;
                attr_D_FF := JInt 256;
                attr_NUM_BLOCKS := JInt 8;
                attr_NUM_HEADS := JInt 4;
                attr_DROP_OUT := JFloat (1 # 10);
                attr_MODEL_PATH := JString "model/model-ckpt.pt";
                attr_DATASET_PATH := JString "vesteinn/babylm";
                attr_DEVICE := "cuda" |}.
Proof.
  apply (proj2 (class_body_returns_iff_keys_present example_config true _)).
  eexists _, _, _. split; [reflexivity|]. split_and!; reflexivity.
Defined.

Lemma class_body_raises_first_failure_witness :
  exists before entry after,
    class_entries = before ++ entry :: after /\
    Forall (fun e => exists v, config_entry config_without_d_ff e.1 e.2 = Returned v)
      before /\
    config_entry config_without_d_ff entry.1 entry.2
    = Raised (ConfigKeyError "d_ff").
Proof.
  apply (proj1 (class_body_raises_first_failure config_without_d_ff false
                  (ConfigKeyError "d_ff"))).
  reflexivity.
Defined.

Lemma config_entry_error_names_what_is_missing_witness :
  config_entry config_without_d_ff "model" "d_ff" = Raised (ConfigKeyError "d_ff").
Proof.
  apply (proj2 (config_entry_error_names_what_is_missing
                  config_without_d_ff "model" "d_ff" (ConfigKeyError "d_ff"))).
  right. right. right. eexists _, _. split; [reflexivity|]. split_and!; reflexivity.
Defined.
